(** * PyMdown command-line front end: a model of [__main__.py] and of the
    smart delete / insert inline patterns of [mdownx].

    The front end is modelled as the Python code is written: plain
    functions become functions, the methods of [Convert] become
    computations in a small writer monad that records every call made to
    a collaborator (logger, file system, formatter, markdown engine).
    Collaborators whose code lives in [lib/] are fields of an
    environment record. *)

From Stdlib Require Import ZArith Ascii String List Bool Lia.
From stdpp Require Import base option gmap strings list fin_maps.

Import ListNotations.
Open Scope string_scope.
Open Scope Z_scope.
Open Scope list_scope.

(** ** Critic mode flags ([lib.settings]) *)

(** Modelled from the spec: the constants [settings.CRITIC_*] are declared
    in [lib/settings.py]; the data model describes them as independent
    flags combined by bitwise union.  They are taken as parameters. *)
Class CriticFlags := {
  CRITIC_IGNORE : Z;
  CRITIC_ACCEPT : Z;
  CRITIC_REJECT : Z;
  CRITIC_VIEW : Z;
  CRITIC_DUMP : Z
}.

(** Python's truth test [mode & flag]. *)
Definition has_flag (mode flag : Z) : bool := negb (Z.land mode flag =? 0).

(** Independent flags: no two of them share a bit, and each of Accept,
    Reject, View and Dump is a flag that can be observed.  Ignore may be
    the empty set of bits. *)
Record flags_independent (F : CriticFlags) : Prop := {
  fi_ignore_accept : Z.land CRITIC_IGNORE CRITIC_ACCEPT = 0;
  fi_ignore_reject : Z.land CRITIC_IGNORE CRITIC_REJECT = 0;
  fi_ignore_view : Z.land CRITIC_IGNORE CRITIC_VIEW = 0;
  fi_ignore_dump : Z.land CRITIC_IGNORE CRITIC_DUMP = 0;
  fi_accept_reject : Z.land CRITIC_ACCEPT CRITIC_REJECT = 0;
  fi_accept_view : Z.land CRITIC_ACCEPT CRITIC_VIEW = 0;
  fi_accept_dump : Z.land CRITIC_ACCEPT CRITIC_DUMP = 0;
  fi_reject_view : Z.land CRITIC_REJECT CRITIC_VIEW = 0;
  fi_reject_dump : Z.land CRITIC_REJECT CRITIC_DUMP = 0;
  fi_view_dump : Z.land CRITIC_VIEW CRITIC_DUMP = 0;
  fi_accept_nz : CRITIC_ACCEPT <> 0;
  fi_reject_nz : CRITIC_REJECT <> 0;
  fi_view_nz : CRITIC_VIEW <> 0;
  fi_dump_nz : CRITIC_DUMP <> 0
}.

(** One bit per flag, Ignore being no bit at all. *)
Definition bit_flags : CriticFlags :=
  {| CRITIC_IGNORE := 0; CRITIC_ACCEPT := 1; CRITIC_REJECT := 2;
     CRITIC_VIEW := 4; CRITIC_DUMP := 8 |}.

(** ** Command-line arguments used by the conversion *)

(** The options read by [get_critic_mode]; [critic_dump_arg] is
    [args.critic_dump]. *)
Record Args := {
  accept : bool;
  reject : bool;
  critic_dump_arg : bool
}.

Section CriticMode.
Context {F : CriticFlags}.

(** [get_critic_mode(args)] *)
Definition get_critic_mode (args : Args) : Z :=
  let critic_mode := CRITIC_IGNORE in
  let critic_mode :=
    if accept args && reject args then Z.lor critic_mode CRITIC_VIEW
    else if accept args then Z.lor critic_mode CRITIC_ACCEPT
    else if reject args then Z.lor critic_mode CRITIC_REJECT
    else critic_mode in
  let critic_mode :=
    if critic_dump_arg args then Z.lor critic_mode CRITIC_DUMP
    else critic_mode in
  critic_mode.
End CriticMode.

(** ** Path operations ([os.path], POSIX flavour)

    [__main__.py] uses [path.join], [path.normpath], [path.abspath],
    [path.basename] and [path.splitext] of the Python standard library.
    They are written here as [posixpath] and [genericpath] define them,
    over strings, with the current directory as an argument. *)
Module posixpath.

Definition sep : ascii := "/"%char.
Definition extsep : ascii := "."%char.

(** [p.startswith(sep)] *)
Definition startswith_sep (p : string) : bool :=
  match p with
  | String c _ => Ascii.eqb c sep
  | EmptyString => false
  end.

(** [p.endswith(sep)] *)
Fixpoint endswith_sep (p : string) : bool :=
  match p with
  | EmptyString => false
  | String c EmptyString => Ascii.eqb c sep
  | String _ p' => endswith_sep p'
  end.

Definition isabs (p : string) : bool := startswith_sep p.

(** [join(a, b)]: an absolute [b] discards [a]. *)
Definition join (a b : string) : string :=
  if startswith_sep b then b
  else if String.eqb a EmptyString || endswith_sep a then a +:+ b
  else a +:+ String sep b.

(** [p.split(sep)] *)
Fixpoint split_sep (p : string) : list string :=
  match p with
  | EmptyString => [EmptyString]
  | String c p' =>
      if Ascii.eqb c sep then EmptyString :: split_sep p'
      else match split_sep p' with
           | h :: t => String c h :: t
           | [] => [String c EmptyString]
           end
  end.

(** The body of the loop of [normpath]; [new_comps] is kept with its
    last element first. *)
Definition normpath_step (initial_slashes : nat) (new_comps : list string)
    (comp : string) : list string :=
  if String.eqb comp EmptyString || String.eqb comp "." then new_comps
  else if negb (String.eqb comp "..")
          || (Nat.eqb initial_slashes 0 && match new_comps with [] => true | _ => false end)
          || match new_comps with last :: _ => String.eqb last ".." | [] => false end
  then comp :: new_comps
  else match new_comps with
       | _ :: rest => rest
       | [] => []
       end.

Definition initial_slashes (p : string) : nat :=
  match p with
  | String c1 (String c2 (String c3 _)) =>
      if Ascii.eqb c1 sep then
        if Ascii.eqb c2 sep then (if Ascii.eqb c3 sep then 1 else 2)%nat else 1%nat
      else 0%nat
  | String c1 (String c2 EmptyString) =>
      if Ascii.eqb c1 sep then (if Ascii.eqb c2 sep then 2 else 1)%nat else 0%nat
  | String c1 EmptyString => if Ascii.eqb c1 sep then 1%nat else 0%nat
  | EmptyString => 0%nat
  end.

Fixpoint repeat_sep (n : nat) (p : string) : string :=
  match n with
  | O => p
  | S n' => String sep (repeat_sep n' p)
  end.

Definition normpath (p : string) : string :=
  if String.eqb p EmptyString then "."
  else
    let slashes := initial_slashes p in
    let comps := rev (fold_left (normpath_step slashes) (split_sep p) []) in
    let p' := repeat_sep slashes (String.concat (String sep EmptyString) comps) in
    if String.eqb p' EmptyString then "." else p'.

(** [abspath(p)], with [os.getcwd()] given. *)
Definition abspath (cwd p : string) : string :=
  normpath (if isabs p then p else join cwd p).

(** [p.rfind(c)], -1 when [c] does not occur. *)
Fixpoint rfind (c : ascii) (p : string) : Z :=
  match p with
  | EmptyString => -1
  | String a p' =>
      let r := rfind c p' in
      if 0 <=? r then r + 1
      else if Ascii.eqb a c then 0 else -1
  end.

(** [p[i:]] and [p[:i]] for [0 <= i]. *)
Fixpoint drop_str (i : nat) (p : string) : string :=
  match i, p with
  | O, _ => p
  | S i', String _ p' => drop_str i' p'
  | S _, EmptyString => EmptyString
  end.

Fixpoint take_str (i : nat) (p : string) : string :=
  match i, p with
  | O, _ => EmptyString
  | S i', String c p' => String c (take_str i' p')
  | S _, EmptyString => EmptyString
  end.

(** [basename(p)]: what follows the last separator. *)
Definition basename (p : string) : string :=
  drop_str (Z.to_nat (rfind sep p + 1)) p.

(** The [while] loop of [genericpath._splitext]: is there a character
    other than a dot among the [n] characters from [filenameIndex]? *)
Fixpoint has_non_dot (n : nat) (p : string) : bool :=
  match n, p with
  | O, _ => false
  | S n', String c p' => negb (Ascii.eqb c extsep) || has_non_dot n' p'
  | S _, EmptyString => true
  end.

(** [splitext(p)]: the extension starts at the last dot of the last
    component, leading dots of that component not counting. *)
Definition splitext (p : string) : string * string :=
  let sepIndex := rfind sep p in
  let dotIndex := rfind extsep p in
  if (sepIndex <? dotIndex)
     && has_non_dot (Z.to_nat (dotIndex - (sepIndex + 1)))
                    (drop_str (Z.to_nat (sepIndex + 1)) p)
  then (take_str (Z.to_nat dotIndex) p, drop_str (Z.to_nat dotIndex) p)
  else (p, EmptyString).

End posixpath.


(** [c in s] *)
Fixpoint str_contains (c : ascii) (s : string) : bool :=
  match s with
  | EmptyString => false
  | String a s' => Ascii.eqb a c || str_contains c s'
  end.


(** ** Data of the conversion *)

Definition PASS : Z := 0.
Definition FAIL : Z := 1.

(** Values of a metadata or front-matter mapping. *)
Inductive value :=
| VStr (s : string)
| VList (l : list string).

Abbreviation Meta := (gmap string value).
Abbreviation FrontMatter := (gmap string value).

(** The fields of the run-wide [settings.Settings] object that
    [__main__.py] reads ([self.config]). *)
Record Config := {
  encoding : string;
  output_encoding : string;
  critic : Z;
  is_stream : bool;
  preview : bool;
  plain : bool;
  clean : bool;
  relative_out : option string
}.

(** The per-file settings returned by [config.get] ([self.settings]):
    the entries of its ["page"] dictionary and its ["settings"]
    dictionary. *)
Record FileSettings := {
  page_destination : option string;
  page_basepath : option string;
  page_references : list string;
  page_meta : Meta;
  page_include : list string;
  md_settings : gmap string value
}.

(** The attributes of a [Convert] object. *)
Record Convert := {
  config : Config;
  output : option string;
  basepath : option string;
  title : option string;
  settings_path : option string
}.

(** ** Calls to collaborators, as observed from outside *)

Inductive event :=
| LogError (msg : string)
| LogInfo (msg : string)
| LogTraceback
| ConfigGet (file_name basepath output : option string) (frontmatter : FrontMatter)
| OpenRead (file_name encoding : string)
| GetFrontmatter (text : option string)
| LoadTextResource (ref_path encoding : string)
| TextCreate (destination : option string) (encoding : string)
| CriticDumpCall (text : option string) (accept view : Z)
| TextWrite (text : string)
| TextClose
| HtmlCreate (settings : FileSettings)
| MdConvert (text : string)
| HtmlSetMeta (meta : Meta)
| HtmlWrite (markdown : string)
| HtmlClose
| AutoOpen (name : string).

(** Calls that produce the dump artifact. *)
Definition is_dump_output (e : event) : bool :=
  match e with
  | TextCreate _ _ | CriticDumpCall _ _ _ | TextWrite _ | TextClose => true
  | _ => false
  end.

(** Calls to [logger.Log.error]. *)
Definition is_error_log (e : event) : bool :=
  match e with
  | LogError _ | LogTraceback => true
  | _ => false
  end.


(** A computation yields the calls it made, in order, and its result. *)
Definition M (A : Type) : Type := list event * A.

#[export] Instance M_ret : MRet M := fun A (a : A) => ([], a).

#[export] Instance M_bind : MBind M := fun A B (k : A -> M B) (m : M A) =>
  let '(t1, a) := m in
  let '(t2, b) := k a in
  (t1 ++ t2, b).

Definition emit (e : event) : M unit := ([e], tt).

(** Left fold of a computation over a list: a [for] loop with an
    accumulator. *)
Fixpoint foldM {A B} (f : A -> B -> M A) (a : A) (l : list B) : M A :=
  match l with
  | [] => mret a
  | x :: l' => a' ← f a x; foldM f a' l'
  end.

(** ** The environment of a run

    What [__main__.py] imports from [lib/] and from the operating system.
    A collaborator called inside [try] returns [None] when it raises; the
    others are total.  The answers of the environment do not change
    during a run. *)
Record Env := {
  (** [settings.Settings.get(file_name, basepath, output, frontmatter)] *)
  config_get : option string -> option string -> option string ->
               FrontMatter -> option FileSettings;
  (** [codecs.open(file_name, "r", encoding).read()] *)
  open_read : string -> string -> option string;
  (** [os.path.exists], [os.path.isfile], [os.getcwd()] *)
  path_exists : string -> bool;
  path_isfile : string -> bool;
  getcwd : string;
  (** [lib.resources] *)
  splitenc : string -> string -> string * string;
  get_user_path : string;
  is_absolute : string -> bool;
  load_text_resource : string -> string -> string;
  (** [lib.frontmatter.get_frontmatter_string(text)] *)
  get_frontmatter_string : option string -> FrontMatter * string;
  (** [formatter.Text(destination, encoding)]: does the constructor return? *)
  formatter_Text : option string -> string -> bool;
  (** [formatter.Html(...)]: the name of the file it opened, [html.file.name] *)
  formatter_Html : Config -> FileSettings -> option (option string);
  (** [critic_dump.CriticDump().dump(text, accept, view)] *)
  CriticDump_dump : option string -> Z -> Z -> string;
  (** [MdConverts(text, ...)] followed by [convert()]: the converter's
      [markdown] and [meta] attributes *)
  md_convert : Config -> FileSettings -> option string -> string ->
               option (string * Meta);
  (** [scrub.scrub(html)] *)
  scrub : string -> string
}.

(** ** Functions of [__main__.py] *)

(** [get_title(file_name, title_val)] *)
Definition get_title (cwd : string) (file_name title_val : option string)
    : option string :=
  match title_val with
  | Some t => Some t
  | None =>
      match file_name with
      | Some f =>
          Some (fst (posixpath.splitext
                       (posixpath.basename (posixpath.abspath cwd f))))
      | None => None
      end
  end.

(** [d.update(other)]: every key of [other] replaces the key of [d]. *)
Definition dict_update (d other : gmap string value) : gmap string value :=
  other ∪ d.

(** [merge_meta(meta1, meta2, title)] *)
Definition merge_meta (meta1 meta2 : Meta) (title : option string) : Meta :=
  let meta := dict_update meta1 meta2 in
  match meta !! "title", title with
  | None, Some t => <["title" := VStr t]> meta
  | _, _ => meta
  end.

Section Conversion.
Context {F : CriticFlags} (E : Env).

(** [path.exists(p) and path.isfile(p)] *)
Definition is_regular_file (p : string) : bool :=
  path_exists E p && path_isfile E p.

(** The body of the loop of [get_references] up to [ref_path]: the
    candidates of a relative entry are tried in order, base path first. *)
Definition resolve_reference (basepath : option string) (file_name : string)
    : option string :=
  let user_path := posixpath.join (get_user_path E) file_name in
  let is_abs := is_absolute E file_name in
  if negb is_abs then
    let base_temp :=
      match basepath with
      | Some b => Some (posixpath.normpath (posixpath.join b file_name))
      | None => None
      end in
    let user_temp :=
      Some (posixpath.normpath (posixpath.join user_path file_name)) in
    match base_temp with
    | Some b =>
        if is_regular_file b then Some b
        else match user_temp with
             | Some u => if is_regular_file u then Some u else None
             | None => None
             end
    | None =>
        match user_temp with
        | Some u => if is_regular_file u then Some u else None
        | None => None
        end
    end
  else if is_abs && is_regular_file file_name then Some file_name
  else None.

Definition reference_not_found (file_name : string) : string :=
  "Could not find reference file " +:+ file_name +:+ "!".

(** One iteration of the loop of [get_references].  The loop rebinds
    [encoding], so the encoding split off one entry is the default of
    the next. *)
Definition get_references_step (basepath : option string)
    (acc : string * string) (entry : string) : M (string * string) :=
  let '(text, encoding) := acc in
  let '(file_name, encoding) := splitenc E entry encoding in
  match resolve_reference basepath file_name with
  | Some ref_path =>
      emit (LoadTextResource ref_path encoding);;
      mret (text +:+ load_text_resource E ref_path encoding, encoding)
  | None =>
      emit (LogError (reference_not_found file_name));;
      mret (text, encoding)
  end.

(** [get_references(references, basepath, encoding)] *)
Definition get_references (references : list string)
    (basepath : option string) (encoding : string) : M string :=
  acc ← foldM (get_references_step basepath) (EmptyString, encoding) references;
  mret (fst acc).

Context (self : Convert).

(** [Convert.strip_frontmatter(text)] *)
Definition strip_frontmatter (text : option string)
    : M (FrontMatter * string) :=
  emit (GetFrontmatter text);;
  mret (get_frontmatter_string E text).

(** [Convert.get_file_settings(file_name, frontmatter)]: the settings
    stored in [self.settings] when the status is PASS, [None] for FAIL.
    A caller that leaves [frontmatter] out passes the default [{}], the
    empty mapping. *)
Definition get_file_settings (file_name : option string)
    (frontmatter : FrontMatter) : M (option FileSettings) :=
  emit (ConfigGet file_name (basepath self) (output self) frontmatter);;
  match config_get E file_name (basepath self) (output self) frontmatter with
  | Some settings => mret (Some settings)
  | None => emit LogTraceback;; mret None
  end.

(** [Convert.read_file(file_name)] *)
Definition read_file (file_name : string) : M (option string) :=
  emit (OpenRead file_name (encoding (config self)));;
  match open_read E file_name (encoding (config self)) with
  | Some text => mret (Some text)
  | None =>
      emit (LogError ("Failed to open " +:+ file_name +:+ "!"));;
      mret None
  end.

(** The block shared by [critic_dump] and [html_dump]:
    [if status == PASS and file_name is not None: text = self.read_file(file_name)],
    then [status = FAIL] when the text is [None].  The result is [None]
    for FAIL and the text to work on otherwise; a stream keeps the
    text it was given. *)
Definition read_stage (file_name text : option string)
    : M (option (option string)) :=
  match file_name with
  | Some f =>
      t ← read_file f;
      mret (match t with Some t => Some (Some t) | None => None end)
  | None => mret (Some text)
  end.

Definition ambiguous_dump : string :=
  "Acceptance or rejection was not specified for critic dump!".

(** [Convert.critic_dump(file_name, text)].  Each [if status == PASS]
    of the source is one level of nesting here; a branch that sets
    [status = FAIL] returns it, since every later block is guarded.
    [dump], [write] and [close] are called outside any [try]: the model
    is of the runs in which they return; a run in which one of them
    raises leaves [critic_dump] without a status and is not covered. *)
Definition critic_dump (file_name text : option string) : M Z :=
  settings ← get_file_settings file_name ∅;
  match settings with
  | None => mret FAIL
  | Some settings =>
      read ← read_stage file_name text;
      match read with
      | None => mret FAIL
      | Some text =>
          if Z.land (critic (config self))
                    (Z.lor CRITIC_REJECT CRITIC_ACCEPT) =? 0
          then emit (LogError ambiguous_dump);; mret FAIL
          else
            emit (TextCreate (page_destination settings)
                             (output_encoding (config self)));;
            if formatter_Text E (page_destination settings)
                              (output_encoding (config self))
            then
              let accept := Z.land (critic (config self)) CRITIC_ACCEPT in
              let view := Z.land (critic (config self)) CRITIC_VIEW in
              emit (CriticDumpCall text accept view);;
              emit (TextWrite (CriticDump_dump E text accept view));;
              emit TextClose;;
              mret PASS
            else
              emit (LogError "Failed to create text file!");;
              mret FAIL
      end
  end.

(** The text [html_dump] and [critic_dump] work on after their read
    stage, [None] when the file cannot be read. *)
Definition source_text (file_name text : option string)
    : option (option string) :=
  match file_name with
  | Some f =>
      match open_read E f (encoding (config self)) with
      | Some t => Some (Some t)
      | None => None
      end
  | None => Some text
  end.

(** The stages of [critic_dump] that come before its test of the
    critic mode both succeed: [config.get] returns and, for a file,
    the file is read. *)
Definition settings_and_source_ok (file_name : option string) : bool :=
  match config_get E file_name (basepath self) (output self) ∅ with
  | Some _ =>
      match file_name with
      | Some f =>
          match open_read E f (encoding (config self)) with
          | Some _ => true
          | None => false
          end
      | None => true
      end
  | None => false
  end.

(** [Convert.html_dump(file_name, text)], nested as [critic_dump] is.
    The front-matter extraction, [get_references], [write], [scrub] and
    the last [close] are called outside any [try]: the model is of the
    runs in which they return; a run in which one of them raises leaves
    [html_dump] without a status and is not covered. *)
Definition html_dump (file_name text : option string) : M Z :=
  let html_title := get_title (getcwd E) file_name (title self) in
  read ← read_stage file_name text;
  match read with
  | None => mret FAIL
  | Some text =>
      '(frontmatter, text) ← strip_frontmatter text;
      settings ← get_file_settings file_name frontmatter;
      match settings with
      | None => mret FAIL
      | Some settings =>
          refs ← get_references (page_references settings)
                                (page_basepath settings)
                                (encoding (config self));
          let text := text +:+ refs in
          emit (HtmlCreate settings);;
          match formatter_Html E (config self) settings with
          | None => emit LogTraceback;; mret FAIL
          | Some html_name =>
              emit (MdConvert text);;
              match md_convert E (config self) settings html_name text with
              | None => emit LogTraceback;; emit HtmlClose;; mret FAIL
              | Some (markdown, meta) =>
                  emit (HtmlSetMeta
                          (merge_meta meta (page_meta settings) html_title));;
                  emit (HtmlWrite (if clean (config self)
                                   then scrub E markdown else markdown));;
                  emit HtmlClose;;
                  match html_name with
                  | Some name =>
                      if preview (config self) then emit (AutoOpen name)
                      else mret tt
                  | None => mret tt
                  end;;
                  mret PASS
              end
          end
      end
  end.

(** ["%s" % md_file] *)
Definition format_source (md_file : option string) : string :=
  match md_file with
  | Some s => s
  | None => "None"
  end.

(** The guard of [convert]:
    [files is None or len(files) == 0 or files[0] in ('', None)]. *)
Definition nothing_to_parse (files : option (list (option string))) : bool :=
  match files with
  | None => true
  | Some [] => true
  | Some (None :: _) => true
  | Some (Some s :: _) => String.eqb s EmptyString
  end.

(** What one iteration of the loop of [convert] logs and runs once it
    is past the [break]. *)
Definition announce (md_file : option string) : M unit :=
  if is_stream (config self) then emit (LogInfo "Converting buffer...")
  else emit (LogInfo ("Converting " +:+ format_source md_file +:+ "...")).

Definition convert_one (md_file : option string) : M Z :=
  let file_name := if negb (is_stream (config self)) then md_file else None in
  let text := if negb (is_stream (config self)) then None else md_file in
  if negb (Z.land (critic (config self)) CRITIC_DUMP =? 0)
  then critic_dump file_name text
  else html_dump file_name text.

(** The calls made for one document of the batch. *)
Definition document_trace (md_file : option string) : list event :=
  fst (announce md_file) ++ fst (convert_one md_file).

(** The [for] loop of [convert], [status] being the loop's variable. *)
Fixpoint convert_loop (files : list (option string)) (status : Z) : M Z :=
  match files with
  | [] => mret status
  | md_file :: rest =>
      if negb (status =? PASS) then mret status
      else
        announce md_file;;
        status ← (if status =? PASS then convert_one md_file
                  else mret status);
        convert_loop rest status
  end.

(** [Convert.convert(files)] *)
Definition convert (files : option (list (option string))) : M Z :=
  if nothing_to_parse files then
    emit (LogError "Nothing to parse!");; mret FAIL
  else
    match files with
    | Some files => convert_loop files PASS
    | None => mret PASS
    end.

End Conversion.

(** ** The smart patterns of [mdownx.delete] and [mdownx.insert]

    [RE_SMART_DEL] and [RE_SMART_INS] are the same regular expression up
    to the delimiter character [d] ([~] or [^]):

    [(?<![a-zA-Z\d d])(d{2})(?![d\s])(.+?d*?)(?<!\s)\2(?![a-zA-Z\d d])]

    [SimpleTagPattern] compiles it after a lazy prefix group and before a
    greedy suffix group, with
    [re.DOTALL | re.UNICODE]: the back-reference [\2] is the opening run
    and the dot matches every character.  A text is a list of
    characters with code points below 256. *)
Module smart.

Definition code (c : ascii) : N := N_of_ascii c.

Definition in_range (lo hi : N) (c : ascii) : bool :=
  ((lo <=? code c) && (code c <=? hi))%N.

(** [a-zA-Z] *)
Definition is_letter (c : ascii) : bool :=
  in_range 97 122 c || in_range 65 90 c.

(** [\d] *)
Definition is_digit (c : ascii) : bool := in_range 48 57 c.

(** [\s] of a Unicode pattern, below 256 *)
Definition is_space (c : ascii) : bool :=
  in_range 9 13 c || in_range 28 32 c || in_range 133 133 c
  || in_range 160 160 c.

Section Pattern.
Variable d : ascii.

(** [[a-zA-Z\d d]] *)
Definition word_or_delim (c : ascii) : bool :=
  is_letter c || is_digit c || Ascii.eqb c d.

(** [[d\s]] *)
Definition delim_or_space (c : ascii) : bool :=
  Ascii.eqb c d || is_space c.

Variable s : list ascii.

(** [(?<![cls])] at position [i] *)
Definition not_preceded_by (cls : ascii -> bool) (i : nat) : bool :=
  match i with
  | O => true
  | S i' => match s !! i' with
            | Some c => negb (cls c)
            | None => true
            end
  end.

(** [(?![cls])] at position [i] *)
Definition not_followed_by (cls : ascii -> bool) (i : nat) : bool :=
  match s !! i with
  | Some c => negb (cls c)
  | None => true
  end.

(** [d{2}] at position [i] *)
Definition delim_run (i : nat) : bool :=
  match s !! i, s !! (S i) with
  | Some a, Some b => Ascii.eqb a d && Ascii.eqb b d
  | _, _ => false
  end.

(** [(.+?d*?)] from [i] to [j]: with the dot matching every
    character, any span of at least one character. *)
Definition content_span (i j : nat) : bool := (i <? j)%nat.

(** The pattern matches with its opening run at [i] and its closing
    run at [j]. *)
Definition smart_match_at (i j : nat) : bool :=
  not_preceded_by word_or_delim i
  && delim_run i
  && not_followed_by delim_or_space (i + 2)
  && content_span (i + 2) j
  && not_preceded_by is_space j
  && delim_run j
  && not_followed_by word_or_delim (j + 2).

(** The match a backtracking search reports: the lazy prefix
    [(.*?)] makes it the leftmost opening run, the lazy content the
    nearest closing run. *)
Definition first_close (i : nat) : option nat :=
  List.find (smart_match_at i) (seq (i + 3) (length s - (i + 3))).

Fixpoint first_open (candidates : list nat) : option (nat * nat) :=
  match candidates with
  | [] => None
  | i :: rest =>
      match first_close i with
      | Some j => Some (i, j)
      | None => first_open rest
      end
  end.

Definition smart_search : option (nat * nat) :=
  first_open (seq 0 (length s)).

(** Groups 1, 3 and 4 of the compiled pattern: the text before the
    match, the tagged content, the text after the match. *)
Definition smart_groups : option (list ascii * list ascii * list ascii) :=
  match smart_search with
  | Some (i, j) =>
      Some (take i s, take (j - (i + 2)) (drop (i + 2) s), drop (j + 2) s)
  | None => None
  end.

End Pattern.

Definition tilde : ascii := "~"%char.
Definition caret : ascii := "^"%char.

(** [RE_SMART_DEL] and [RE_SMART_INS] *)
Definition RE_SMART_DEL := smart_match_at tilde.
Definition RE_SMART_INS := smart_match_at caret.

Definition search_del (text : string) :=
  smart_groups tilde (list_ascii_of_string text).
Definition search_ins (text : string) :=
  smart_groups caret (list_ascii_of_string text).

End smart.


(** ** A sample run

    A small environment on which the functions can be evaluated: a
    directory [/doc] holding two documents and two reference files, and
    a user directory holding one reference file. *)
Module sample.

Definition flags : CriticFlags := bit_flags.

Definition doc_text : string := "---title: Custom---# Title {++added++}".
Definition doc_body : string := "# Title {++added++}".

Definition doc_front : FrontMatter :=
  {[ "title" := VStr "Custom"; "author" := VStr "front" ]}.

Definition engine_meta : Meta :=
  {[ "author" := VStr "engine"; "date" := VStr "2014" ]}.

Definition user_dir : string := "/home/u/.PyMdown".

Definition files_on_disk : list string :=
  ["/doc/a.md"; "/doc/c.md"; "/doc/refs.md"; "/doc/more.md";
   "/home/u/.PyMdown/notes.md"].

Definition dirs_on_disk : list string :=
  ["/"; "/doc"; "/home"; "/home/u"; "/home/u/.PyMdown"].

Definition mem (p : string) (l : list string) : bool :=
  existsb (String.eqb p) l.

(** The settings of a document: the front matter is its metadata. *)
Definition settings_of (frontmatter : FrontMatter) : FileSettings := {|
  page_destination := Some "/doc/out.html";
  page_basepath := Some "/doc";
  page_references := ["refs.md"; "missing.md"; "more.md"];
  page_meta := frontmatter;
  page_include := [];
  md_settings := ∅
|}.

Definition env : Env := {|
  config_get := fun file_name basepath output frontmatter =>
    Some (settings_of frontmatter);
  open_read := fun file_name encoding =>
    if mem file_name ["/doc/a.md"; "/doc/c.md"] then Some doc_text else None;
  path_exists := fun p => mem p files_on_disk || mem p dirs_on_disk;
  path_isfile := fun p => mem p files_on_disk;
  getcwd := "/doc";
  splitenc := fun entry default => (entry, default);
  get_user_path := user_dir;
  is_absolute := posixpath.isabs;
  load_text_resource := fun ref_path encoding => "[" +:+ ref_path +:+ "]";
  get_frontmatter_string := fun text =>
    match text with
    | Some t => if String.eqb t doc_text then (doc_front, doc_body) else (∅, t)
    | None => (∅, EmptyString)
    end;
  formatter_Text := fun destination encoding => true;
  formatter_Html := fun config settings => Some (page_destination settings);
  CriticDump_dump := fun text accept view =>
    match text with
    | Some t => t
    | None => EmptyString
    end;
  md_convert := fun config settings html_name text =>
    Some ("<p>" +:+ text +:+ "</p>", engine_meta);
  scrub := fun html => html
|}.

Definition config_with (mode : Z) : Config := {|
  encoding := "utf-8";
  output_encoding := "utf-8";
  critic := mode;
  is_stream := false;
  preview := false;
  plain := false;
  clean := false;
  relative_out := None
|}.

(** A [Convert] object for a run with the given critic mode. *)
Definition converter (mode : Z) : Convert := {|
  config := config_with mode;
  output := None;
  basepath := None;
  title := None;
  settings_path := None
|}.

(** Rendering, and dumping without [--accept] or [--reject]. *)
Definition render : Convert := converter 0.
Definition dump_only : Convert := converter 8.

(** Dumping with [--accept]. *)
Definition dump_accept : Convert := converter 9.

Definition batch : list (option string) :=
  [Some "/doc/a.md"; Some "/doc/gone.md"; Some "/doc/c.md"].

End sample.

(** ** Observations on strings and on lists of calls *)


(** The text of the resources loaded by a list of calls, in the order
    of the calls. *)
Fixpoint loaded_text (E : Env) (calls : list event) : string :=
  match calls with
  | [] => EmptyString
  | LoadTextResource ref_path enc :: rest =>
      load_text_resource E ref_path enc +:+ loaded_text E rest
  | _ :: rest => loaded_text E rest
  end.

(** The paths of the resources loaded by a list of calls. *)
Fixpoint loaded_paths (calls : list event) : list string :=
  match calls with
  | [] => []
  | LoadTextResource ref_path _ :: rest => ref_path :: loaded_paths rest
  | _ :: rest => loaded_paths rest
  end.

(** Calls to the HTML output and to the markdown engine. *)
Definition is_render_call (e : event) : bool :=
  match e with
  | HtmlCreate _ | MdConvert _ | HtmlSetMeta _ | HtmlWrite _ | HtmlClose
  | AutoOpen _ => true
  | _ => false
  end.

(** Calls that open a source file. *)
Definition is_source_read (e : event) : bool :=
  match e with
  | OpenRead _ _ => true
  | _ => false
  end.

Definition is_html_write (e : event) : bool :=
  match e with
  | HtmlWrite _ => true
  | _ => false
  end.

Definition is_html_close (e : event) : bool :=
  match e with
  | HtmlClose => true
  | _ => false
  end.

Definition is_auto_open (e : event) : bool :=
  match e with
  | AutoOpen _ => true
  | _ => false
  end.

(** How many calls of a list satisfy a test. *)
Definition count_calls (test : event -> bool) (calls : list event) : nat :=
  length (List.filter test calls).

(** Calls made by [get_references]. *)
Definition is_reference_call (e : event) : bool :=
  match e with
  | LoadTextResource _ _ | LogError _ => true
  | _ => false
  end.

(** The encoding bound to [encoding] in [get_references] once the
    entries [references] have been gone through. *)
Definition encoding_after (E : Env) (basepath : option string)
    (encoding : string) (references : list string) : string :=
  snd (snd (foldM (get_references_step E basepath)
                  (EmptyString, encoding) references)).

(** Calls that resolve the critic marks and write the result. *)
Definition is_dump_write (e : event) : bool :=
  match e with
  | CriticDumpCall _ _ _ | TextWrite _ | TextClose => true
  | _ => false
  end.

(** An output that was created: the constructor of [formatter.Html] or
    of [formatter.Text] returned. *)
Definition is_opened_output (E : Env) (self : Convert) (e : event) : bool :=
  match e with
  | HtmlCreate settings =>
      match formatter_Html E (config self) settings with
      | Some _ => true
      | None => false
      end
  | TextCreate destination enc => formatter_Text E destination enc
  | _ => false
  end.

(** A call to [close] on an output. *)
Definition is_closed_output (e : event) : bool :=
  match e with
  | HtmlClose | TextClose => true
  | _ => false
  end.

(** A [Convert] object of the sample run with the preview option. *)
Definition sample_previewing : Convert := {|
  config := {| encoding := "utf-8"; output_encoding := "utf-8"; critic := 0;
               is_stream := false; preview := true; plain := false;
               clean := false; relative_out := None |};
  output := None;
  basepath := None;
  title := None;
  settings_path := None
|}.

(** A [Convert] object of the sample run reading a stream. *)
Definition sample_streaming : Convert := {|
  config := {| encoding := "utf-8"; output_encoding := "utf-8"; critic := 0;
               is_stream := true; preview := false; plain := false;
               clean := false; relative_out := None |};
  output := None;
  basepath := None;
  title := None;
  settings_path := None
|}.

(** ** The plain patterns and the extensions of [mdownx]

    [RE_DEL] and [RE_INS] are, up to the delimiter [d],
    [(d{2})(?!\s)(.*?)(?<!\s)\2]: the content may be empty and nothing
    is asked of the characters around the runs.  [plain_match_at] tells
    at which positions of an opening and a closing run the pattern can
    match; [plain_search] is the match the compiled pattern reports. *)
Module mdownx.

Definition plain_match_at (d : ascii) (s : list ascii) (i j : nat) : bool :=
  smart.delim_run d s i
  && smart.not_followed_by s smart.is_space (i + 2)
  && (i + 2 <=? j)%nat
  && smart.not_preceded_by s smart.is_space j
  && smart.delim_run d s j.

(** [RE_DEL] and [RE_INS] *)
Definition RE_DEL := plain_match_at smart.tilde.
Definition RE_INS := plain_match_at smart.caret.

(** The match a backtracking search reports for the plain pattern,
    compiled like the smart one between a lazy prefix and a greedy
    suffix: the leftmost opening run and, the content being lazy, the
    nearest closing run. *)
Definition plain_first_close (d : ascii) (s : list ascii) (i : nat)
    : option nat :=
  List.find (plain_match_at d s i) (seq (i + 2) (length s - (i + 2))).

Fixpoint plain_first_open (d : ascii) (s : list ascii)
    (candidates : list nat) : option (nat * nat) :=
  match candidates with
  | [] => None
  | i :: rest =>
      match plain_first_close d s i with
      | Some j => Some (i, j)
      | None => plain_first_open d s rest
      end
  end.

Definition plain_search (d : ascii) (s : list ascii) : option (nat * nat) :=
  plain_first_open d s (seq 0 (length s)).

(** [SimpleTagPattern(pattern, tag)] *)
Record SimpleTagPattern := {
  pattern : list ascii -> nat -> nat -> bool;
  tag : string
}.

Section Extension.
(** [md.inlinePatterns] and its [add(key, value, location)], which
    belong to the markdown engine. *)
Context {Patterns : Type}
        (add : string -> SimpleTagPattern -> string -> Patterns -> Patterns).

(** The attributes of the [Markdown] object that the extensions
    touch. *)
Record Markdown := {
  ESCAPED_CHARS : list ascii;
  inlinePatterns : Patterns
}.

(** [if d not in md.ESCAPED_CHARS: md.ESCAPED_CHARS.append(d)] *)
Definition escape (d : ascii) (chars : list ascii) : list ascii :=
  if existsb (Ascii.eqb d) chars then chars else chars ++ [d].

(** [config.get(key, True)] on the result of [getConfigs()] *)
Definition config_flag (configs : gmap string bool) (key : string) : bool :=
  match configs !! key with
  | Some b => b
  | None => true
  end.

(** [DeleteExtension.extendMarkdown(md, md_globals)] *)
Definition delete_extendMarkdown (configs : gmap string bool) (md : Markdown)
    : Markdown :=
  {| ESCAPED_CHARS := escape smart.tilde (ESCAPED_CHARS md);
     inlinePatterns :=
       add "del"
         {| pattern := if config_flag configs "smart_delete"
                       then smart.RE_SMART_DEL else RE_DEL;
            tag := "del" |}
         "<not_strong" (inlinePatterns md) |}.

(** [InsertExtension.extendMarkdown(md, md_globals)] *)
Definition insert_extendMarkdown (configs : gmap string bool) (md : Markdown)
    : Markdown :=
  {| ESCAPED_CHARS := escape smart.caret (ESCAPED_CHARS md);
     inlinePatterns :=
       add "ins"
         {| pattern := if config_flag configs "smart_insert"
                       then smart.RE_SMART_INS else RE_INS;
            tag := "ins" |}
         "<not_strong" (inlinePatterns md) |}.

End Extension.

End mdownx.

(** ** The command line: [get_files], [get_file_stream], [get_sources],
    [display_licenses] and [main] *)
Module cli.

(** The parsed arguments ([args]); [critic_args] holds [args.accept],
    [args.reject] and [args.critic_dump]. *)
Record Namespace := {
  licenses : bool;
  debug : bool;
  quiet : bool;
  preview : bool;
  plain_html : bool;
  title : option string;
  critic_args : Args;
  output : option string;
  batch : bool;
  force_stdout : bool;
  force_no_template : bool;
  output_encoding : option string;
  clean : bool;
  settings : string;
  encoding : string;
  basepath : option string;
  markdown : list string
}.

(** The keyword arguments of [settings.Settings(...)]. *)
Record SettingsArgs := {
  kw_encoding : string;
  kw_output_encoding : string;
  kw_critic : Z;
  kw_batch : bool;
  kw_stream : bool;
  kw_preview : bool;
  kw_settings_path : string;
  kw_plain : bool;
  kw_force_stdout : bool;
  kw_force_no_template : bool;
  kw_clean : bool
}.

(** [logger.CRITICAL], [logger.DEBUG], [logger.INFO] *)
Inductive level := CRITICAL | DEBUG | INFO.

(** What [main] does besides the calls of [convert]. *)
Inductive call :=
| Conversion (e : event)
| LogPlain (msg : string)
| SetLevel (l : level)
| ReadInput (encoding : string)
| UnpackUserFiles
| NewSettings (kw : SettingsArgs)
| ReadSettings
| LoadLicenses
| StdoutWrite (text : string).

(** What the command line gets from the system and from [lib/]. *)
Record System := {
  (** [glob.glob(pattern)] *)
  glob : string -> list string;
  (** the lines of [fileinput.input()] joined, [None] when reading or
      decoding raises *)
  input_text : string -> option string;
  (** [res.load_text_resource('data/licenses.txt', internal=True)] *)
  licenses_text : option string;
  (** whether [lib.scrub] could be imported *)
  scrublib : bool;
  (** the attributes of the object built by [settings.Settings(...)]
      once [read_settings()] has run *)
  new_settings : SettingsArgs -> Config
}.

Definition MC (A : Type) : Type := list call * A.

#[export] Instance MC_ret : MRet MC := fun A (a : A) => ([], a).

#[export] Instance MC_bind : MBind MC := fun A B (k : A -> MC B) (m : MC A) =>
  let '(t1, a) := m in
  let '(t2, b) := k a in
  (t1 ++ t2, b).

Definition tell (c : call) : MC unit := ([c], tt).

(** The calls of [convert] and of the logger, seen from [main]. *)
Definition lift {A} (m : M A) : MC A := (map Conversion (fst m), snd m).

Section Main.
Context {F : CriticFlags} (S : System) (E : Env).

(** The set built by [get_files]. *)
Definition matched_files (file_patterns : list string) : gset string :=
  list_to_set
    (map (fun f => posixpath.abspath (getcwd E) (posixpath.normpath f))
         (flat_map (glob S) file_patterns)).

(** [get_files(file_patterns)]: [None] when the assertion fails.  The
    list is made from a set, in an order the code does not choose. *)
Definition get_files (file_patterns : list string) : option (list string) :=
  if Nat.eqb (length file_patterns) 0 then None
  else Some (elements (matched_files file_patterns)).

(** [get_file_stream(encoding)] *)
Definition get_file_stream (enc : string) : MC (option string) :=
  tell (ReadInput enc);;
  match input_text S enc with
  | Some stream => mret (Some stream)
  | None => tell (Conversion LogTraceback);; mret None
  end.

(** [get_sources(args)] *)
Definition get_sources (args : Namespace)
    : MC (list (option string) * bool) :=
  match get_files (markdown args) with
  | Some files => mret (map Some files, false)
  | None =>
      stream ← get_file_stream (encoding args);
      mret ([stream], true)
  end.

(** [display_licenses()] *)
Definition display_licenses : MC Z :=
  tell LoadLicenses;;
  match licenses_text S with
  | Some text => tell (StdoutWrite text);; mret PASS
  | None => mret FAIL
  end.

Definition use_batch_mode : string :=
  "Please use batch mode to process multiple files!".

(** [main()], from the parsed arguments on; the [Convert] object is
    built from the settings, [args.output], [args.basepath] and
    [args.title]. *)
Definition main (args : Namespace) : MC Z :=
  if licenses args then display_licenses
  else
    tell (SetLevel (if quiet args then CRITICAL
                    else if debug args then DEBUG else INFO));;
    sources ← get_sources args;
    let files : list (option string) := fst sources in
    let stream : bool := snd sources in
    let batch := if stream then false else batch args in
    if negb batch && (1 <? length files)%nat then
      tell (LogPlain use_batch_mode);; mret FAIL
    else
      let output_encoding :=
        match output_encoding args with
        | Some enc => enc
        | None => encoding args
        end in
      tell UnpackUserFiles;;
      let kw := {| kw_encoding := encoding args;
                   kw_output_encoding := output_encoding;
                   kw_critic := get_critic_mode (critic_args args);
                   kw_batch := batch;
                   kw_stream := stream;
                   kw_preview := preview args;
                   kw_settings_path := settings args;
                   kw_plain := plain_html args;
                   kw_force_stdout := force_stdout args;
                   kw_force_no_template := force_no_template args;
                   kw_clean := if scrublib S then clean args else false |} in
      tell (NewSettings kw);;
      tell ReadSettings;;
      lift (convert E
              (Build_Convert (new_settings S kw) (output args)
                 (basepath args) (title args) None)
              (Some files)).

End Main.

End cli.

(** A system for the sample run: two patterns that match files of
    [/doc], one of them under two spellings. *)
Definition sample_system : cli.System := {|
  cli.glob := fun pattern =>
    if String.eqb pattern "*.md" then ["a.md"; "c.md"]
    else if String.eqb pattern "./a*" then ["./a.md"]
    else [];
  cli.input_text := fun enc => Some sample.doc_text;
  cli.licenses_text := Some "MIT";
  cli.scrublib := false;
  cli.new_settings := fun kw => {|
    encoding := cli.kw_encoding kw;
    output_encoding := cli.kw_output_encoding kw;
    critic := cli.kw_critic kw;
    is_stream := cli.kw_stream kw;
    preview := cli.kw_preview kw;
    plain := cli.kw_plain kw;
    clean := cli.kw_clean kw;
    relative_out := None
  |}
|}.

(** Arguments of the sample run: the given patterns and critic
    options, everything else left at its default. *)
Definition sample_args (patterns : list string) (critic_options : Args)
    (batch_mode : bool) : cli.Namespace := {|
  cli.licenses := false;
  cli.debug := false;
  cli.quiet := false;
  cli.preview := false;
  cli.plain_html := false;
  cli.title := None;
  cli.critic_args := critic_options;
  cli.output := None;
  cli.batch := batch_mode;
  cli.force_stdout := false;
  cli.force_no_template := false;
  cli.output_encoding := None;
  cli.clean := false;
  cli.settings := "/home/u/.PyMdown/pymdown.cfg";
  cli.encoding := "utf-8";
  cli.basepath := None;
  cli.markdown := patterns
|}.

Definition no_critic_options : Args :=
  {| accept := false; reject := false; critic_dump_arg := false |}.

(** The keyword arguments [main] builds the settings with, and the
    [Convert] object it runs. *)
Definition main_settings {F : CriticFlags} (S : cli.System)
    (args : cli.Namespace) (stream : bool) : cli.SettingsArgs :=
  {| cli.kw_encoding := cli.encoding args;
     cli.kw_output_encoding :=
       match cli.output_encoding args with
       | Some enc => enc
       | None => cli.encoding args
       end;
     cli.kw_critic := get_critic_mode (cli.critic_args args);
     cli.kw_batch := if stream then false else cli.batch args;
     cli.kw_stream := stream;
     cli.kw_preview := cli.preview args;
     cli.kw_settings_path := cli.settings args;
     cli.kw_plain := cli.plain_html args;
     cli.kw_force_stdout := cli.force_stdout args;
     cli.kw_force_no_template := cli.force_no_template args;
     cli.kw_clean := if cli.scrublib S then cli.clean args else false |}.

Definition main_converter {F : CriticFlags} (S : cli.System)
    (args : cli.Namespace) (stream : bool) : Convert :=
  {| config := cli.new_settings S (main_settings S args stream);
     output := cli.output args;
     basepath := cli.basepath args;
     title := cli.title args;
     settings_path := None |}.

Definition is_conversion_call (c : cli.call) : bool :=
  match c with
  | cli.Conversion _ => true
  | _ => false
  end.

(** * Properties *)

(** ** Paths *)

Example normpath_dots : posixpath.normpath "/a/b/../c/./d//e/" = "/a/c/d/e".
Proof. reflexivity. Qed.

Example normpath_two_slashes : posixpath.normpath "//a/../../b" = "//b".
Proof. reflexivity. Qed.

Example normpath_three_slashes : posixpath.normpath "///a" = "/a".
Proof. reflexivity. Qed.

Example normpath_leading_dotdot : posixpath.normpath "../a/../../b" = "../../b".
Proof. reflexivity. Qed.

Example normpath_empty_result : posixpath.normpath "a/.." = ".".
Proof. reflexivity. Qed.

Example splitext_hidden : posixpath.splitext "/x/.bashrc" = ("/x/.bashrc", EmptyString).
Proof. reflexivity. Qed.

Example splitext_last_dot : posixpath.splitext "/x.y/a.tar.gz" = ("/x.y/a.tar", ".gz").
Proof. reflexivity. Qed.

Example splitext_dir_dot : posixpath.splitext "/x.y/abc" = ("/x.y/abc", EmptyString).
Proof. reflexivity. Qed.

Example splitext_leading_dots : posixpath.splitext "..a" = ("..a", EmptyString).
Proof. reflexivity. Qed.

Example splitext_leading_dots_ext : posixpath.splitext "..a.b" = ("..a", ".b").
Proof. reflexivity. Qed.

Example basename_last : posixpath.basename "/x.y/abc" = "abc".
Proof. reflexivity. Qed.

Example basename_plain : posixpath.basename "abc" = "abc".
Proof. reflexivity. Qed.

Example join_plain : posixpath.join "/u" "refs.md" = "/u/refs.md".
Proof. reflexivity. Qed.

Example join_trailing_sep : posixpath.join "/u/" "refs.md" = "/u/refs.md".
Proof. reflexivity. Qed.

Example join_absolute : posixpath.join "/u/" "/refs.md" = "/refs.md".
Proof. reflexivity. Qed.

Example join_empty : posixpath.join EmptyString "refs.md" = "refs.md".
Proof. reflexivity. Qed.

Example abspath_relative : posixpath.abspath "/w" "docs/readme.md" = "/w/docs/readme.md".
Proof. reflexivity. Qed.

(** ** The critic mode *)

Section CriticModeFacts.
Context {F : CriticFlags}.

Lemma has_flag_lor a b f : has_flag (Z.lor a b) f = has_flag a f || has_flag b f.
Proof.
  unfold has_flag. rewrite Z.land_lor_distr_l.
  destruct (Z.eqb_spec (Z.land a f) 0) as [Ha|Ha];
    destruct (Z.eqb_spec (Z.land b f) 0) as [Hb|Hb]; simpl;
    destruct (Z.eqb_spec (Z.lor (Z.land a f) (Z.land b f)) 0) as [H|H];
    try reflexivity; exfalso.
  - apply H. rewrite Ha, Hb. reflexivity.
  - apply Z.lor_eq_0_iff in H. tauto.
  - apply Z.lor_eq_0_iff in H. tauto.
  - apply Z.lor_eq_0_iff in H. tauto.
Qed.

Lemma has_flag_diag f : f <> 0 -> has_flag f f = true.
Proof.
  intros Hf. unfold has_flag. rewrite Z.land_diag.
  destruct (Z.eqb_spec f 0); [contradiction | reflexivity].
Qed.

Lemma has_flag_disjoint a f : Z.land a f = 0 -> has_flag a f = false.
Proof. intros H. unfold has_flag. rewrite H. reflexivity. Qed.

Lemma has_flag_disjoint_sym a f : Z.land f a = 0 -> has_flag a f = false.
Proof. intros H. apply has_flag_disjoint. rewrite Z.land_comm. exact H. Qed.

(** Neither Accept nor Reject set is what the test of [critic_dump]
    checks. *)
Lemma neither_flag_test mode :
  has_flag mode CRITIC_ACCEPT = false ->
  has_flag mode CRITIC_REJECT = false ->
  (Z.land mode (Z.lor CRITIC_REJECT CRITIC_ACCEPT) =? 0) = true.
Proof.
  unfold has_flag. intros Ha Hr.
  apply negb_false_iff, Z.eqb_eq in Ha. apply negb_false_iff, Z.eqb_eq in Hr.
  rewrite Z.land_lor_distr_r, Ha, Hr. reflexivity.
Qed.

Hypothesis Hind : flags_independent F.

Ltac flag_facts :=
  rewrite ?has_flag_lor;
  rewrite ?(has_flag_diag _ (fi_accept_nz F Hind)),
          ?(has_flag_diag _ (fi_reject_nz F Hind)),
          ?(has_flag_diag _ (fi_view_nz F Hind)),
          ?(has_flag_diag _ (fi_dump_nz F Hind));
  rewrite ?(has_flag_disjoint _ _ (fi_ignore_accept F Hind)),
          ?(has_flag_disjoint _ _ (fi_ignore_reject F Hind)),
          ?(has_flag_disjoint _ _ (fi_ignore_view F Hind)),
          ?(has_flag_disjoint _ _ (fi_accept_reject F Hind)),
          ?(has_flag_disjoint_sym _ _ (fi_accept_reject F Hind)),
          ?(has_flag_disjoint_sym _ _ (fi_accept_view F Hind)),
          ?(has_flag_disjoint_sym _ _ (fi_reject_view F Hind)),
          ?(has_flag_disjoint _ _ (fi_accept_view F Hind)),
          ?(has_flag_disjoint _ _ (fi_reject_view F Hind)),
          ?(has_flag_disjoint_sym _ _ (fi_accept_dump F Hind)),
          ?(has_flag_disjoint_sym _ _ (fi_reject_dump F Hind)),
          ?(has_flag_disjoint_sym _ _ (fi_view_dump F Hind));
  try reflexivity.

Lemma both_options_give_view dump :
  let mode := get_critic_mode
                {| accept := true; reject := true; critic_dump_arg := dump |} in
  has_flag mode CRITIC_VIEW = true
  /\ has_flag mode CRITIC_ACCEPT = false
  /\ has_flag mode CRITIC_REJECT = false.
Proof.
  destruct dump; unfold get_critic_mode; simpl; repeat split; flag_facts.
Qed.

Lemma accept_reject_exclusive args :
  has_flag (get_critic_mode args) CRITIC_ACCEPT
  && has_flag (get_critic_mode args) CRITIC_REJECT = false.
Proof.
  destruct args as [[] [] []]; unfold get_critic_mode; simpl; flag_facts.
Qed.

End CriticModeFacts.

Lemma bit_flags_independent : flags_independent bit_flags.
Proof. constructor; simpl; (reflexivity || discriminate). Qed.

(** C8: when both the accept and the reject option are given, the mode
    computed by [get_critic_mode] has the View flag and neither the
    Accept nor the Reject flag; hence, whatever the options, the mode
    never has Accept and Reject together. *)
Theorem get_critic_mode_never_accept_and_reject (F : CriticFlags) :
  flags_independent F ->
  (forall dump,
     let mode := get_critic_mode
                   {| accept := true; reject := true; critic_dump_arg := dump |} in
     has_flag mode CRITIC_VIEW = true
     /\ has_flag mode CRITIC_ACCEPT = false
     /\ has_flag mode CRITIC_REJECT = false)
  /\ (forall args,
        has_flag (get_critic_mode args) CRITIC_ACCEPT
        && has_flag (get_critic_mode args) CRITIC_REJECT = false).
Proof.
  intros Hind. split.
  - intros dump. apply both_options_give_view, Hind.
  - intros args. apply accept_reject_exclusive, Hind.
Qed.

Lemma get_critic_mode_never_accept_and_reject_witness :
  flags_independent bit_flags
  /\ get_critic_mode (F := bit_flags)
       {| accept := true; reject := true; critic_dump_arg := true |} = 12
  /\ has_flag 12 (@CRITIC_VIEW bit_flags) = true
  /\ has_flag 12 (@CRITIC_ACCEPT bit_flags) = false
  /\ has_flag 12 (@CRITIC_REJECT bit_flags) = false.
Proof.
  split; [exact bit_flags_independent |].
  split; [reflexivity |].
  exact (proj1 (get_critic_mode_never_accept_and_reject bit_flags
                  bit_flags_independent) true).
Defined.

(** ** Titles *)


Lemma rfind_lower c p : -1 <= posixpath.rfind c p.
Proof.
  induction p as [|a p IH]; simpl; [lia |].
  destruct (Z.leb_spec 0 (posixpath.rfind c p)); [lia |].
  destruct (Ascii.eqb a c); lia.
Qed.



Lemma rfind_none_contains c p :
  posixpath.rfind c p < 0 -> str_contains c p = false.
Proof.
  induction p as [|a p IH]; simpl; [reflexivity |].
  destruct (Z.leb_spec 0 (posixpath.rfind c p)) as [Hr|Hr]; [lia |].
  destruct (Ascii.eqb a c); [lia |]. intros _. apply IH, Hr.
Qed.

Lemma drop_after_rfind c p :
  str_contains c
    (posixpath.drop_str (Z.to_nat (posixpath.rfind c p + 1)) p) = false.
Proof.
  induction p as [|a p IH]; [reflexivity |].
  pose proof (rfind_lower c p) as Hlow.
  cbn [posixpath.rfind].
  destruct (Z.leb_spec 0 (posixpath.rfind c p)) as [Hr|Hr].
  - replace (Z.to_nat (posixpath.rfind c p + 1 + 1))
      with (S (Z.to_nat (posixpath.rfind c p + 1))) by lia.
    exact IH.
  - destruct (Ascii.eqb a c) eqn:Hac.
    + change (str_contains c p = false). apply rfind_none_contains, Hr.
    + change (Ascii.eqb a c || str_contains c p = false).
      rewrite Hac. apply rfind_none_contains, Hr.
Qed.









Example get_title_stem :
  get_title "/w" (Some "docs/readme.tar.md") None = Some "readme.tar".
Proof. reflexivity. Qed.

Example get_title_hidden :
  get_title "/w" (Some "docs/.profile") None = Some ".profile".
Proof. reflexivity. Qed.

Example get_title_explicit :
  get_title "/w" (Some "docs/readme.md") (Some "Custom") = Some "Custom".
Proof. reflexivity. Qed.

(** ** Metadata *)

Lemma lookup_dict_update (d other : gmap string value) k :
  dict_update d other !! k =
  match other !! k with
  | Some v => Some v
  | None => d !! k
  end.
Proof.
  unfold dict_update. rewrite lookup_union.
  destruct (other !! k), (d !! k); reflexivity.
Qed.

Lemma merge_meta_lookup (meta1 meta2 : Meta) title k :
  merge_meta meta1 meta2 title !! k =
  match meta2 !! k with
  | Some v => Some v
  | None =>
      match meta1 !! k with
      | Some v => Some v
      | None => if decide (k = "title") then VStr <$> title else None
      end
  end.
Proof.
  unfold merge_meta.
  destruct (dict_update meta1 meta2 !! "title") eqn:Ht.
  - rewrite lookup_dict_update. rewrite lookup_dict_update in Ht.
    destruct (meta2 !! k) eqn:H2; [reflexivity |].
    destruct (meta1 !! k) eqn:H1; [reflexivity |].
    case_decide; [| reflexivity]. subst k. rewrite H2, H1 in Ht. discriminate.
  - destruct title as [t|].
    + rewrite lookup_insert. rewrite lookup_dict_update in Ht.
      case_decide as Hk.
      * subst k. destruct (meta2 !! "title"); [discriminate |].
        rewrite Ht. rewrite decide_True by reflexivity. reflexivity.
      * rewrite lookup_dict_update.
        destruct (meta2 !! k); [reflexivity |].
        destruct (meta1 !! k); [reflexivity |].
        rewrite decide_False by congruence. reflexivity.
    + rewrite lookup_dict_update.
      destruct (meta2 !! k); [reflexivity |].
      destruct (meta1 !! k); [reflexivity |].
      case_decide; reflexivity.
Qed.

(** ** Computations *)

Lemma bind_fst {A B} (m : M A) (k : A -> M B) :
  fst (m ≫= k) = fst m ++ fst (k (snd m)).
Proof.
  destruct m as [t a]. unfold mbind, M_bind. simpl.
  destruct (k a); reflexivity.
Qed.

Lemma bind_snd {A B} (m : M A) (k : A -> M B) :
  snd (m ≫= k) = snd (k (snd m)).
Proof.
  destruct m as [t a]. unfold mbind, M_bind. simpl.
  destruct (k a); reflexivity.
Qed.

Lemma bind_pair {A B} (m : M A) (k : A -> M B) :
  m ≫= k = (fst m ++ fst (k (snd m)), snd (k (snd m))).
Proof. rewrite <- bind_fst, <- bind_snd. destruct (m ≫= k); reflexivity. Qed.

Lemma ret_pair {A} (a : A) : (mret a : M A) = ([], a).
Proof. reflexivity. Qed.

Lemma foldM_app {A B} (f : A -> B -> M A) (a : A) (l1 l2 : list B) :
  foldM f a (l1 ++ l2) = (foldM f a l1 ≫= fun a' => foldM f a' l2).
Proof.
  revert a. induction l1 as [|x l1 IH]; intros a; cbn [foldM app].
  - rewrite bind_pair. simpl. destruct (foldM f a l2); reflexivity.
  - rewrite (bind_pair (f a x)), IH, !bind_pair. cbn [fst snd].
    rewrite app_assoc. reflexivity.
Qed.

(** ** The batch loop *)

Section Batch.
Context {F : CriticFlags} (E : Env) (self : Convert).

Lemma convert_loop_stopped files status :
  status <> PASS -> convert_loop E self files status = ([], status).
Proof.
  intros Hs. destruct files as [|d rest]; [reflexivity |]. cbn [convert_loop].
  destruct (Z.eqb_spec status PASS); [contradiction | reflexivity].
Qed.

Lemma convert_loop_cons d rest :
  convert_loop E self (d :: rest) PASS =
  (document_trace E self d ++ fst (convert_loop E self rest (snd (convert_one E self d))),
   snd (convert_loop E self rest (snd (convert_one E self d)))).
Proof.
  cbn [convert_loop]. change (PASS =? PASS) with true. cbn [negb].
  rewrite !bind_pair. unfold document_trace. cbn [fst snd].
  rewrite app_assoc. reflexivity.
Qed.

(** The loop runs the documents in order up to and including the
    first one whose conversion does not return PASS. *)
Lemma convert_loop_fail_fast pre d post :
  Forall (fun x => snd (convert_one E self x) = PASS) pre ->
  snd (convert_one E self d) <> PASS ->
  convert_loop E self (pre ++ d :: post) PASS =
  (concat (map (document_trace E self) (pre ++ [d])), snd (convert_one E self d)).
Proof.
  intros Hpre Hd. induction Hpre as [|x pre Hx Hpre IH]; simpl app.
  - rewrite convert_loop_cons, convert_loop_stopped by exact Hd.
    simpl. rewrite !app_nil_r. reflexivity.
  - rewrite convert_loop_cons, Hx, IH. simpl. reflexivity.
Qed.

Lemma convert_loop_all_pass files :
  Forall (fun x => snd (convert_one E self x) = PASS) files ->
  convert_loop E self files PASS =
  (concat (map (document_trace E self) files), PASS).
Proof.
  intros Hall. induction Hall as [|x files Hx Hall IH]; [reflexivity |].
  rewrite convert_loop_cons, Hx, IH. reflexivity.
Qed.

End Batch.

(** C3: the documents of a batch are converted in the order of the
    list, and when the conversion of one of them returns FAIL, the
    conversions before it having returned PASS, the calls made by
    [convert] are those of the documents up to and including that one,
    none is made for a later document, and the run returns FAIL. *)
Theorem convert_fail_fast {F : CriticFlags} (E : Env) (self : Convert)
    (pre post : list (option string)) (d : option string) :
  nothing_to_parse (Some (pre ++ d :: post)) = false ->
  Forall (fun x => snd (convert_one E self x) = PASS) pre ->
  snd (convert_one E self d) = FAIL ->
  convert E self (Some (pre ++ d :: post)) =
  (concat (map (document_trace E self) (pre ++ [d])), FAIL).
Proof.
  intros Hguard Hpre Hd. unfold convert. rewrite Hguard.
  rewrite convert_loop_fail_fast; [rewrite Hd; reflexivity | exact Hpre |].
  rewrite Hd. discriminate.
Qed.

Lemma convert_fail_fast_witness :
  convert (F := sample.flags) sample.env sample.render (Some sample.batch) =
  (concat (map (document_trace (F := sample.flags) sample.env sample.render)
               [Some "/doc/a.md"; Some "/doc/gone.md"]), FAIL).
Proof.
  apply (convert_fail_fast (F := sample.flags) sample.env sample.render
           [Some "/doc/a.md"] [Some "/doc/c.md"] (Some "/doc/gone.md")).
  - reflexivity.
  - repeat constructor.
  - reflexivity.
Defined.

(** C10: when the list of sources is [None], is empty, or starts with
    the empty string or with [None], [convert] logs "Nothing to parse!",
    returns FAIL and makes no other call: no document is converted. *)
Theorem convert_nothing_to_parse {F : CriticFlags} (E : Env) (self : Convert) :
  convert E self None = ([LogError "Nothing to parse!"], FAIL)
  /\ convert E self (Some []) = ([LogError "Nothing to parse!"], FAIL)
  /\ (forall rest,
        convert E self (Some (Some EmptyString :: rest)) =
        ([LogError "Nothing to parse!"], FAIL))
  /\ (forall rest,
        convert E self (Some (None :: rest)) =
        ([LogError "Nothing to parse!"], FAIL)).
Proof. repeat split. Qed.

(** ** The smart patterns *)

Section SmartFacts.
Variable d : ascii.
Variable text : list ascii.



Lemma first_close_sound i j :
  smart.first_close d text i = Some j -> smart.smart_match_at d text i j = true.
Proof. unfold smart.first_close. intros H. apply find_some in H. apply H. Qed.

Lemma first_open_sound candidates i j :
  smart.first_open d text candidates = Some (i, j) ->
  smart.smart_match_at d text i j = true.
Proof.
  induction candidates as [|k rest IH]; simpl; [discriminate |].
  destruct (smart.first_close d text k) as [j'|] eqn:Hk; [| exact IH].
  intros [= <- <-]. apply first_close_sound, Hk.
Qed.

(** The match reported by the search is a match of the pattern. *)
Lemma smart_search_sound i j :
  smart.smart_search d text = Some (i, j) ->
  smart.smart_match_at d text i j = true.
Proof. apply first_open_sound. Qed.

End SmartFacts.




Example smart_del_word : smart.search_del "~~del~~" =
  Some ([], list_ascii_of_string "del", []).
Proof. reflexivity. Qed.

Example smart_del_after_letter : smart.search_del "a~~del~~" = None.
Proof. reflexivity. Qed.

Example smart_del_before_letter : smart.search_del "~~del~~a" = None.
Proof. reflexivity. Qed.

Example smart_del_connected : smart.search_del "~~connected~~words~~" =
  Some ([], list_ascii_of_string "connected~~words", []).
Proof. reflexivity. Qed.

Example smart_del_inner_space : smart.search_del "~~ del~~" = None.
Proof. reflexivity. Qed.

Example smart_del_trailing_run : smart.search_del "x ~~del~~~ y" =
  Some (list_ascii_of_string "x ", list_ascii_of_string "del~",
        list_ascii_of_string " y").
Proof. reflexivity. Qed.

Example smart_ins_first : smart.search_ins "x ^^ins^^ y ^^b^^" =
  Some (list_ascii_of_string "x ", list_ascii_of_string "ins",
        list_ascii_of_string " y ^^b^^").
Proof. reflexivity. Qed.

(** ** The critic dump *)

Section CriticDump.
Context {F : CriticFlags} (E : Env) (self : Convert).

(** With the Dump flag set, a document of the batch goes to
    [critic_dump]. *)
Lemma convert_one_dump md_file :
  has_flag (critic (config self)) CRITIC_DUMP = true ->
  convert_one E self md_file =
  critic_dump E self
    (if negb (is_stream (config self)) then md_file else None)
    (if negb (is_stream (config self)) then None else md_file).
Proof. unfold convert_one, has_flag. intros ->. reflexivity. Qed.

(** What [critic_dump] does when the mode has neither Accept nor
    Reject. *)
Lemma critic_dump_unresolved file_name text :
  (Z.land (critic (config self)) (Z.lor CRITIC_REJECT CRITIC_ACCEPT) =? 0) = true ->
  critic_dump E self file_name text =
  match config_get E file_name (basepath self) (output self) ∅ with
  | None =>
      ([ConfigGet file_name (basepath self) (output self) ∅; LogTraceback],
       FAIL)
  | Some _ =>
      match file_name with
      | Some f =>
          match open_read E f (encoding (config self)) with
          | Some _ =>
              ([ConfigGet file_name (basepath self) (output self) ∅;
                OpenRead f (encoding (config self));
                LogError ambiguous_dump], FAIL)
          | None =>
              ([ConfigGet file_name (basepath self) (output self) ∅;
                OpenRead f (encoding (config self));
                LogError ("Failed to open " +:+ f +:+ "!")], FAIL)
          end
      | None =>
          ([ConfigGet file_name (basepath self) (output self) ∅;
            LogError ambiguous_dump], FAIL)
      end
  end.
Proof.
  intros Htest. unfold critic_dump, get_file_settings, read_stage, read_file.
  destruct (config_get E file_name (basepath self) (output self) ∅);
    [| reflexivity].
  destruct file_name as [fn|].
  - destruct (open_read E fn (encoding (config self))).
    + cbn. rewrite Htest. reflexivity.
    + reflexivity.
  - cbn. rewrite Htest. reflexivity.
Qed.

End CriticDump.

(** When both options are given the mode is View, and [critic_dump]
    refuses it like a mode with neither option. *)
Lemma critic_dump_both_options {F : CriticFlags} (E : Env) (self : Convert)
    (dump : bool) (file_name text : option string) :
  flags_independent F ->
  critic (config self) =
    get_critic_mode {| accept := true; reject := true; critic_dump_arg := dump |} ->
  snd (critic_dump E self file_name text) = FAIL.
Proof.
  intros Hind Hmode.
  destruct (both_options_give_view Hind dump) as (_ & Ha & Hr).
  rewrite <- Hmode in Ha, Hr.
  rewrite critic_dump_unresolved by (apply neither_flag_test; assumption).
  destruct (config_get E _ _ _ _); [| reflexivity].
  destruct file_name as [fn|]; [| reflexivity].
  destruct (open_read E fn _); reflexivity.
Qed.

Lemma failed_to_open_not_ambiguous (f : string) :
  LogError ("Failed to open " +:+ f +:+ "!") <> LogError ambiguous_dump.
Proof. intros H. injection H as H. discriminate H. Qed.

(** C1 (as amended): when the critic mode has neither the Accept nor
    the Reject flag, [critic_dump] returns FAIL, logs an error as its
    last call and makes no call that produces the dump; the error is the
    one about the missing acceptance or rejection whenever the settings
    were resolved and the source was read, the stages that come before
    the test; when one of these stages fails, the calls end with the
    error of that failure, the traceback of [config.get] or the failure
    to open the file, and the error about the missing acceptance or
    rejection is not logged. *)
Theorem critic_dump_needs_resolution {F : CriticFlags} (E : Env)
    (self : Convert) (file_name text : option string) :
  has_flag (critic (config self)) CRITIC_ACCEPT = false ->
  has_flag (critic (config self)) CRITIC_REJECT = false ->
  snd (critic_dump E self file_name text) = FAIL
  /\ existsb is_dump_output (fst (critic_dump E self file_name text)) = false
  /\ (exists tr e,
        fst (critic_dump E self file_name text) = tr ++ [e]
        /\ is_error_log e = true)
  /\ (settings_and_source_ok E self file_name = true ->
      exists tr,
        fst (critic_dump E self file_name text) =
        tr ++ [LogError ambiguous_dump])
  /\ (settings_and_source_ok E self file_name = false ->
      ~ In (LogError ambiguous_dump) (fst (critic_dump E self file_name text))
      /\ ((config_get E file_name (basepath self) (output self) ∅ = None
           /\ fst (critic_dump E self file_name text) =
              [ConfigGet file_name (basepath self) (output self) ∅;
               LogTraceback])
          \/ (exists f,
                file_name = Some f
                /\ open_read E f (encoding (config self)) = None
                /\ fst (critic_dump E self file_name text) =
                   [ConfigGet file_name (basepath self) (output self) ∅;
                    OpenRead f (encoding (config self));
                    LogError ("Failed to open " +:+ f +:+ "!")]))).
Proof.
  intros Ha Hr. unfold settings_and_source_ok.
  rewrite critic_dump_unresolved by (apply neither_flag_test; assumption).
  destruct (config_get E file_name (basepath self) (output self) ∅).
  - destruct file_name as [fn|].
    + destruct (open_read E fn (encoding (config self))) eqn:Hopen.
      * split; [reflexivity |]. split; [reflexivity |]. split.
        { eexists [_; _], _. split; reflexivity. }
        split; [| discriminate].
        intros _. eexists [_; _]. reflexivity.
      * split; [reflexivity |]. split; [reflexivity |]. split.
        { eexists [_; _], _. split; reflexivity. }
        split; [discriminate |].
        intros _. split.
        { intros [H | [H | [H | []]]];
            first [discriminate H | exact (failed_to_open_not_ambiguous fn H)]. }
        right. exists fn. repeat split. exact Hopen.
    + split; [reflexivity |]. split; [reflexivity |]. split.
      { eexists [_], _. split; reflexivity. }
      split; [| discriminate].
      intros _. eexists [_]. reflexivity.
  - split; [reflexivity |]. split; [reflexivity |]. split.
    { eexists [_], _. split; reflexivity. }
    split; [discriminate |].
    intros _. split.
    { intros [H | [H | []]]; discriminate H. }
    left. split; reflexivity.
Qed.

Lemma critic_dump_needs_resolution_witness :
  snd (critic_dump (F := sample.flags) sample.env sample.dump_only
         (Some "/doc/a.md") None) = FAIL
  /\ exists tr,
       fst (critic_dump (F := sample.flags) sample.env sample.dump_only
              (Some "/doc/a.md") None) = tr ++ [LogError ambiguous_dump].
Proof.
  destruct (critic_dump_needs_resolution (F := sample.flags) sample.env
              sample.dump_only (Some "/doc/a.md") None)
    as (Hfail & _ & _ & Hmsg & _).
  - reflexivity.
  - reflexivity.
  - split; [exact Hfail | apply Hmsg; reflexivity].
Defined.

(** C1 as stated fails: dumping without acceptance or rejection a file
    that cannot be opened reports the failure to open it; the error about
    the missing acceptance or rejection is not logged. *)
Lemma critic_dump_unreadable_source :
  has_flag (critic (config sample.dump_only)) (@CRITIC_DUMP sample.flags) = true
  /\ has_flag (critic (config sample.dump_only)) (@CRITIC_ACCEPT sample.flags) = false
  /\ has_flag (critic (config sample.dump_only)) (@CRITIC_REJECT sample.flags) = false
  /\ critic_dump (F := sample.flags) sample.env sample.dump_only
       (Some "/doc/gone.md") None =
     ([ConfigGet (Some "/doc/gone.md") None None ∅;
       OpenRead "/doc/gone.md" "utf-8";
       LogError "Failed to open /doc/gone.md!"], FAIL)
  /\ ~ In (LogError ambiguous_dump)
          (fst (critic_dump (F := sample.flags) sample.env sample.dump_only
                  (Some "/doc/gone.md") None)).
Proof.
  repeat split.
  intros [H | [H | [H | []]]]; discriminate H.
Qed.





(** ** References *)

Section References.
Context (E : Env) (basepath : option string).

(** An entry that is not found leaves the accumulated text as it is
    and logs the error. *)
Lemma get_references_step_missing text enc entry file_name enc' :
  splitenc E entry enc = (file_name, enc') ->
  resolve_reference E basepath file_name = None ->
  get_references_step E basepath (text, enc) entry =
  ([LogError (reference_not_found file_name)], (text, enc')).
Proof.
  intros Hsplit Hres. unfold get_references_step.
  rewrite Hsplit, Hres. reflexivity.
Qed.

(** The loop on a list with such an entry: the entries before it, the
    error, then the entries after it, starting from the text
    accumulated before it. *)
Lemma get_references_loop_missing acc pre entry post file_name enc' :
  let before := foldM (get_references_step E basepath) acc pre in
  splitenc E entry (snd (snd before)) = (file_name, enc') ->
  resolve_reference E basepath file_name = None ->
  let after := foldM (get_references_step E basepath)
                     (fst (snd before), enc') post in
  foldM (get_references_step E basepath) acc (pre ++ entry :: post) =
  (fst before ++ LogError (reference_not_found file_name) :: fst after,
   snd after).
Proof.
  intros before Hsplit Hres after.
  rewrite foldM_app, bind_pair. fold before. cbn [foldM].
  destruct (snd before) as [text enc] eqn:Hb. cbn [fst snd] in *.
  rewrite (get_references_step_missing _ _ _ _ _ Hsplit Hres).
  rewrite bind_pair. cbn [fst snd]. fold after. reflexivity.
Qed.

End References.

(** ** Rendering *)

Section Render.
Context (E : Env) (self : Convert).

Lemma read_stage_spec file_name text :
  read_stage E self file_name text =
  (match file_name with
   | Some f =>
       OpenRead f (encoding (config self))
       :: match open_read E f (encoding (config self)) with
          | Some _ => []
          | None => [LogError ("Failed to open " +:+ f +:+ "!")]
          end
   | None => []
   end, source_text E self file_name text).
Proof.
  unfold read_stage, read_file, source_text.
  destruct file_name as [fn|]; [| reflexivity].
  destruct (open_read E fn (encoding (config self))); reflexivity.
Qed.

(** The calls and the status of [html_dump] when the source is read,
    the settings are resolved, the output is created and the engine
    converts the text. *)
Lemma html_dump_pass file_name text raw fm body settings name markdown engine :
  source_text E self file_name text = Some raw ->
  get_frontmatter_string E raw = (fm, body) ->
  config_get E file_name (basepath self) (output self) fm = Some settings ->
  formatter_Html E (config self) settings = Some name ->
  let refs := get_references E (page_references settings)
                (page_basepath settings) (encoding (config self)) in
  md_convert E (config self) settings name (body +:+ snd refs) =
    Some (markdown, engine) ->
  html_dump E self file_name text =
  (match file_name with
   | Some f => [OpenRead f (encoding (config self))]
   | None => []
   end
   ++ [GetFrontmatter raw;
       ConfigGet file_name (basepath self) (output self) fm]
   ++ fst refs
   ++ [HtmlCreate settings;
       MdConvert (body +:+ snd refs);
       HtmlSetMeta (merge_meta engine (page_meta settings)
                      (get_title (getcwd E) file_name (title self)));
       HtmlWrite (if clean (config self) then scrub E markdown else markdown);
       HtmlClose]
   ++ match name with
      | Some n => if preview (config self) then [AutoOpen n] else []
      | None => []
      end,
   PASS).
Proof.
  intros Hsrc Hfm Hcfg Hhtml refs Hmd.
  unfold html_dump, strip_frontmatter, get_file_settings.
  pose proof (read_stage_spec file_name text) as Hread.
  rewrite Hsrc in Hread.
  rewrite bind_pair, Hread. cbn [fst snd].
  replace (match file_name with
           | Some f =>
               OpenRead f (encoding (config self))
               :: match open_read E f (encoding (config self)) with
                  | Some _ => []
                  | None => [LogError ("Failed to open " +:+ f +:+ "!")]
                  end
           | None => []
           end)
    with (match file_name with
          | Some f => [OpenRead f (encoding (config self))]
          | None => []
          end).
  2:{ unfold source_text in Hsrc. destruct file_name as [fn|]; [| reflexivity].
      destruct (open_read E fn (encoding (config self)));
        [reflexivity | discriminate]. }
  rewrite bind_pair. cbn [fst snd emit]. rewrite bind_pair. cbn [fst snd].
  rewrite ret_pair. cbn [fst snd]. rewrite Hfm.
  rewrite bind_pair. cbn [fst snd]. rewrite Hcfg.
  rewrite bind_pair. cbn [fst snd]. rewrite ret_pair. cbn [fst snd].
  rewrite bind_pair. fold refs. cbn [fst snd].
  rewrite bind_pair. cbn [fst snd emit]. rewrite Hhtml.
  rewrite bind_pair. cbn [fst snd]. rewrite Hmd.
  destruct name as [n|]; [destruct (preview (config self)) |]; cbn;
    rewrite ?app_nil_r; rewrite <- ?app_assoc; reflexivity.
Qed.

End Render.

(** C2 (as amended): in a conversion that succeeds, the metadata handed
    to the output is the engine's metadata updated with the front-matter
    metadata of the settings: a key of the front matter replaces the
    engine's key, and the derived title is the value of [title] only
    when neither mapping has that key. *)
Theorem html_dump_meta_precedence (E : Env) (self : Convert)
    (file_name text raw : option string) (fm : FrontMatter) (body : string)
    (settings : FileSettings) (name : option string) (markdown : string)
    (engine : Meta) :
  source_text E self file_name text = Some raw ->
  get_frontmatter_string E raw = (fm, body) ->
  config_get E file_name (basepath self) (output self) fm = Some settings ->
  formatter_Html E (config self) settings = Some name ->
  md_convert E (config self) settings name
    (body +:+ snd (get_references E (page_references settings)
                     (page_basepath settings) (encoding (config self)))) =
    Some (markdown, engine) ->
  let derived := get_title (getcwd E) file_name (title self) in
  let meta := merge_meta engine (page_meta settings) derived in
  In (HtmlSetMeta meta) (fst (html_dump E self file_name text))
  /\ forall k,
       meta !! k =
       match page_meta settings !! k with
       | Some v => Some v
       | None =>
           match engine !! k with
           | Some v => Some v
           | None => if decide (k = "title") then VStr <$> derived else None
           end
       end.
Proof.
  intros Hsrc Hfm Hcfg Hhtml Hmd derived meta. split.
  - rewrite (html_dump_pass E self _ _ _ _ _ _ _ _ _ Hsrc Hfm Hcfg Hhtml Hmd).
    cbn [fst]. rewrite !in_app_iff. right. right. right. left.
    cbn. auto.
  - intros k. apply merge_meta_lookup.
Qed.

Lemma html_dump_meta_precedence_witness :
  let meta := merge_meta sample.engine_meta sample.doc_front (Some "a") in
  In (HtmlSetMeta meta)
     (fst (html_dump sample.env sample.render
             (Some "/doc/a.md") None))
  /\ meta !! "author" = Some (VStr "front")
  /\ meta !! "date" = Some (VStr "2014")
  /\ meta !! "title" = Some (VStr "Custom").
Proof.
  destruct (html_dump_meta_precedence sample.env
              sample.render (Some "/doc/a.md") None (Some sample.doc_text)
              sample.doc_front sample.doc_body
              (sample.settings_of sample.doc_front) (Some "/doc/out.html")
              "<p># Title {++added++}[/doc/refs.md][/doc/more.md]</p>"
              sample.engine_meta)
    as [Hin Hlookup]; try reflexivity.
  split; [exact Hin |].
  split; [| split]; rewrite Hlookup; reflexivity.
Defined.

(** C2 as stated fails: for a key that both mappings have, the metadata
    handed to the output holds the value of the front matter, not the
    value emitted by the engine. *)
Lemma front_matter_overrides_engine_meta :
  sample.engine_meta !! "author" = Some (VStr "engine")
  /\ sample.doc_front !! "author" = Some (VStr "front")
  /\ merge_meta sample.engine_meta sample.doc_front None !! "author" =
     Some (VStr "front")
  /\ exists meta,
       In (HtmlSetMeta meta)
          (fst (html_dump sample.env sample.render
                  (Some "/doc/a.md") None))
       /\ meta !! "author" = Some (VStr "front").
Proof.
  repeat split.
  exists (merge_meta sample.engine_meta sample.doc_front (Some "a")).
  split; [| reflexivity].
  vm_compute. do 8 right. left. reflexivity.
Qed.

Lemma str_app_assoc (a b c : string) : (a +:+ b) +:+ c = a +:+ (b +:+ c).
Proof.
  induction a as [|x a IH]; [reflexivity |].
  change (String x ((a +:+ b) +:+ c) = String x (a +:+ (b +:+ c))).
  f_equal. exact IH.
Qed.

Lemma str_app_nil_r (a : string) : a +:+ EmptyString = a.
Proof.
  induction a as [|x a IH]; [reflexivity |].
  change (String x (a +:+ EmptyString) = String x a). f_equal. exact IH.
Qed.

Lemma get_references_step_text (E : Env) (basepath : option string)
    (entry text enc : string) :
  let one := get_references_step E basepath (EmptyString, enc) entry in
  get_references_step E basepath (text, enc) entry =
  (fst one, (text +:+ fst (snd one), snd (snd one))).
Proof.
  cbv zeta. unfold get_references_step.
  destruct (splitenc E entry enc) as [file_name enc'].
  destruct (resolve_reference E basepath file_name) as [ref_path|]; cbn.
  - reflexivity.
  - rewrite str_app_nil_r. reflexivity.
Qed.

(** The text accumulated by the loop of [get_references] is the text it
    started with followed by what the entries contribute. *)
Lemma get_references_loop_text (E : Env) (basepath : option string)
    (references : list string) (text enc : string) :
  let run := foldM (get_references_step E basepath) (EmptyString, enc) references in
  foldM (get_references_step E basepath) (text, enc) references =
  (fst run, (text +:+ fst (snd run), snd (snd run))).
Proof.
  cbv zeta. revert text enc.
  induction references as [|entry l IH]; intros text enc; cbn [foldM].
  - cbn. rewrite str_app_nil_r. reflexivity.
  - rewrite !bind_pair.
    rewrite (get_references_step_text E basepath entry text enc).
    cbn [fst snd].
    set (one := get_references_step E basepath (EmptyString, enc) entry).
    rewrite (IH (text +:+ fst (snd one)) (snd (snd one))).
    destruct (snd one) as [c enc'] eqn:Hone. cbn [fst snd].
    rewrite (IH c enc'). cbn [fst snd]. rewrite str_app_assoc. reflexivity.
Qed.

(** C5: when an entry of the reference list is not found, the text
    returned by [get_references] is what the entries before it
    contribute, then the empty string, then what the entries after it
    contribute; the error naming the entry is logged between the calls
    made for the entries before and after it; and [html_dump], whose
    other stages succeed, returns PASS with that error among its
    calls. *)
Theorem missing_reference_is_recoverable (E : Env) (self : Convert)
    (file_name text raw : option string) (fm : FrontMatter) (body : string)
    (settings : FileSettings) (name : option string) (markdown : string)
    (engine : Meta) (pre post : list string) (entry ref_name enc' : string) :
  let step := get_references_step E (page_basepath settings) in
  let before := foldM step (EmptyString, encoding (config self)) pre in
  let after := foldM step (EmptyString, enc') post in
  let refs := get_references E (page_references settings)
                (page_basepath settings) (encoding (config self)) in
  source_text E self file_name text = Some raw ->
  get_frontmatter_string E raw = (fm, body) ->
  config_get E file_name (basepath self) (output self) fm = Some settings ->
  page_references settings = pre ++ entry :: post ->
  splitenc E entry (snd (snd before)) = (ref_name, enc') ->
  resolve_reference E (page_basepath settings) ref_name = None ->
  formatter_Html E (config self) settings = Some name ->
  md_convert E (config self) settings name (body +:+ snd refs) =
    Some (markdown, engine) ->
  refs = (fst before ++ LogError (reference_not_found ref_name) :: fst after,
          fst (snd before) +:+ EmptyString +:+ fst (snd after))
  /\ In (LogError (reference_not_found ref_name))
        (fst (html_dump E self file_name text))
  /\ snd (html_dump E self file_name text) = PASS.
Proof.
  intros step before after refs Hsrc Hfm Hcfg Hrefs Hsplit Hres Hhtml Hmd.
  assert (Hr : refs =
    (fst before ++ LogError (reference_not_found ref_name) :: fst after,
     fst (snd before) +:+ EmptyString +:+ fst (snd after))).
  { subst refs before after step. cbv zeta in Hsplit.
    unfold get_references. rewrite Hrefs, bind_pair.
    rewrite (get_references_loop_missing E (page_basepath settings)
               (EmptyString, encoding (config self)) pre entry post
               ref_name enc' Hsplit Hres).
    rewrite (get_references_loop_text E (page_basepath settings) post _ enc').
    cbn [fst snd]. rewrite app_nil_r. reflexivity. }
  split; [exact Hr |].
  rewrite (html_dump_pass E self _ _ _ _ _ _ _ _ _ Hsrc Hfm Hcfg Hhtml Hmd).
  fold refs. split; [| reflexivity].
  cbn [fst]. rewrite Hr. cbn [fst]. rewrite !in_app_iff.
  right. right. left. right. left. reflexivity.
Qed.

Lemma missing_reference_is_recoverable_witness :
  get_references sample.env ["refs.md"; "missing.md"; "more.md"]
    (Some "/doc") "utf-8" =
  ([LoadTextResource "/doc/refs.md" "utf-8";
    LogError "Could not find reference file missing.md!";
    LoadTextResource "/doc/more.md" "utf-8"],
   "[/doc/refs.md]" +:+ EmptyString +:+ "[/doc/more.md]")
  /\ In (LogError "Could not find reference file missing.md!")
        (fst (html_dump sample.env sample.render (Some "/doc/a.md") None))
  /\ snd (html_dump sample.env sample.render (Some "/doc/a.md") None) = PASS.
Proof.
  apply (missing_reference_is_recoverable sample.env sample.render
           (Some "/doc/a.md") None (Some sample.doc_text)
           sample.doc_front sample.doc_body
           (sample.settings_of sample.doc_front) (Some "/doc/out.html")
           "<p># Title {++added++}[/doc/refs.md][/doc/more.md]</p>"
           sample.engine_meta ["refs.md"] ["more.md"] "missing.md"
           "missing.md" "utf-8"); reflexivity.
Defined.

(** ** The user resource path *)

(** The candidates [get_references] tries for a relative entry: the
    entry under the base path, then the entry under [user_path], which
    already ends with the entry. *)
Lemma resolve_reference_relative (E : Env) (base file_name : string) :
  is_absolute E file_name = false ->
  resolve_reference E (Some base) file_name =
  let base_temp := posixpath.normpath (posixpath.join base file_name) in
  let user_temp :=
    posixpath.normpath
      (posixpath.join (posixpath.join (get_user_path E) file_name) file_name) in
  if is_regular_file E base_temp then Some base_temp
  else if is_regular_file E user_temp then Some user_temp
  else None.
Proof. intros Habs. unfold resolve_reference. rewrite Habs. reflexivity. Qed.

(** C4 fails on the code: a relative entry that is a regular file of
    the user resource directory, and not of the base path, is looked up
    under the user directory with its name joined twice, is not found,
    and contributes nothing. *)
Theorem get_references_misses_user_file :
  is_absolute sample.env "notes.md" = false
  /\ is_regular_file sample.env
       (posixpath.normpath (posixpath.join "/doc" "notes.md")) = false
  /\ posixpath.join (get_user_path sample.env) "notes.md" =
     "/home/u/.PyMdown/notes.md"
  /\ is_regular_file sample.env "/home/u/.PyMdown/notes.md" = true
  /\ posixpath.normpath
       (posixpath.join
          (posixpath.join (get_user_path sample.env) "notes.md") "notes.md") =
     "/home/u/.PyMdown/notes.md/notes.md"
  /\ resolve_reference sample.env (Some "/doc") "notes.md" = None
  /\ get_references sample.env ["notes.md"] (Some "/doc") "utf-8" =
     ([LogError "Could not find reference file notes.md!"], EmptyString).
Proof. repeat split. Qed.

(** * Further properties *)

(** ** The critic mode, option by option *)

Section CriticModeTable.
Context {F : CriticFlags}.
Hypothesis Hind : flags_independent F.

Lemma has_flag_accept_dump : has_flag CRITIC_ACCEPT CRITIC_DUMP = false.
Proof. apply has_flag_disjoint, Hind. Qed.

Lemma has_flag_reject_dump : has_flag CRITIC_REJECT CRITIC_DUMP = false.
Proof. apply has_flag_disjoint, Hind. Qed.

Lemma has_flag_view_dump : has_flag CRITIC_VIEW CRITIC_DUMP = false.
Proof. apply has_flag_disjoint, Hind. Qed.

Lemma has_flag_ignore flag :
  flag = CRITIC_ACCEPT \/ flag = CRITIC_REJECT \/ flag = CRITIC_VIEW
  \/ flag = CRITIC_DUMP ->
  has_flag CRITIC_IGNORE flag = false.
Proof.
  intros [-> | [-> | [-> | ->]]]; apply has_flag_disjoint, Hind.
Qed.

Lemma has_flag_cross a b :
  Z.land a b = 0 -> has_flag a b = false /\ has_flag b a = false.
Proof.
  intros H. split; [apply has_flag_disjoint | apply has_flag_disjoint_sym];
    exact H.
Qed.

Lemma get_critic_mode_table args :
  let mode := get_critic_mode args in
  has_flag mode CRITIC_VIEW = accept args && reject args
  /\ has_flag mode CRITIC_ACCEPT = accept args && negb (reject args)
  /\ has_flag mode CRITIC_REJECT = reject args && negb (accept args)
  /\ has_flag mode CRITIC_DUMP = critic_dump_arg args.
Proof.
  pose proof (has_flag_cross _ _ (fi_accept_reject F Hind)) as [Har Hra].
  pose proof (has_flag_cross _ _ (fi_accept_view F Hind)) as [Hav Hva].
  pose proof (has_flag_cross _ _ (fi_accept_dump F Hind)) as [Had Hda].
  pose proof (has_flag_cross _ _ (fi_reject_view F Hind)) as [Hrv Hvr].
  pose proof (has_flag_cross _ _ (fi_reject_dump F Hind)) as [Hrd Hdr].
  pose proof (has_flag_cross _ _ (fi_view_dump F Hind)) as [Hvd Hdv].
  pose proof (has_flag_diag _ (fi_accept_nz F Hind)) as Haa.
  pose proof (has_flag_diag _ (fi_reject_nz F Hind)) as Hrr.
  pose proof (has_flag_diag _ (fi_view_nz F Hind)) as Hvv.
  pose proof (has_flag_diag _ (fi_dump_nz F Hind)) as Hdd.
  pose proof (has_flag_ignore CRITIC_ACCEPT) as Hia.
  pose proof (has_flag_ignore CRITIC_REJECT) as Hir.
  pose proof (has_flag_ignore CRITIC_VIEW) as Hiv.
  pose proof (has_flag_ignore CRITIC_DUMP) as Hid.
  destruct args as [[] [] []]; unfold get_critic_mode; cbn;
    rewrite ?has_flag_lor, ?Har, ?Hra, ?Hav, ?Hva, ?Had, ?Hda, ?Hrv, ?Hvr,
      ?Hrd, ?Hdr, ?Hvd, ?Hdv, ?Haa, ?Hrr, ?Hvv, ?Hdd,
      ?Hia, ?Hir, ?Hiv, ?Hid by tauto;
    repeat split.
Qed.

End CriticModeTable.

(** X1: the mode computed by [get_critic_mode] tells the options apart:
    View is set exactly when both [--accept] and [--reject] are given,
    Accept (Reject) exactly when it alone is given, and Dump exactly
    when [--critic-dump] is given. *)
Theorem get_critic_mode_decodes (F : CriticFlags) (args : Args) :
  flags_independent F ->
  has_flag (get_critic_mode args) CRITIC_VIEW = accept args && reject args
  /\ has_flag (get_critic_mode args) CRITIC_ACCEPT =
     accept args && negb (reject args)
  /\ has_flag (get_critic_mode args) CRITIC_REJECT =
     reject args && negb (accept args)
  /\ has_flag (get_critic_mode args) CRITIC_DUMP = critic_dump_arg args.
Proof. intros Hind. apply (get_critic_mode_table Hind args). Qed.

Lemma get_critic_mode_decodes_witness :
  let mode := get_critic_mode (F := bit_flags)
                {| accept := false; reject := true; critic_dump_arg := true |} in
  has_flag mode 4 = false /\ has_flag mode 1 = false
  /\ has_flag mode 2 = true /\ has_flag mode 8 = true.
Proof.
  exact (get_critic_mode_decodes bit_flags
           {| accept := false; reject := true; critic_dump_arg := true |}
           bit_flags_independent).
Defined.

(** ** Derived titles *)

Lemma take_str_contains c n p :
  str_contains c p = false -> str_contains c (posixpath.take_str n p) = false.
Proof.
  revert p. induction n as [|n IH]; intros p; [reflexivity |].
  destruct p as [|a p]; [reflexivity |]. simpl.
  intros H. apply orb_false_iff in H as [Ha Hp].
  rewrite Ha. apply IH, Hp.
Qed.

Lemma splitext_stem_contains c p :
  str_contains c p = false ->
  str_contains c (fst (posixpath.splitext p)) = false.
Proof.
  intros H. unfold posixpath.splitext.
  destruct (_ && _); [apply take_str_contains, H | exact H].
Qed.

(** X2: a title derived from a file name holds no path separator,
    whatever directories the file name goes through. *)
Theorem get_title_no_separator (cwd f t : string) :
  get_title cwd (Some f) None = Some t ->
  str_contains posixpath.sep t = false.
Proof.
  unfold get_title. intros [= <-].
  apply splitext_stem_contains. unfold posixpath.basename.
  apply drop_after_rfind.
Qed.

Lemma get_title_no_separator_witness :
  str_contains posixpath.sep "notes.v2" = false.
Proof.
  apply (get_title_no_separator "/home/u" "../docs/./notes.v2.md" "notes.v2").
  reflexivity.
Defined.

(** ** Merged metadata *)

(** X3: merging loses no key and invents none: the keys of the merged
    metadata are the keys of the two mappings, and [title] when a title
    was derived. *)
Theorem merge_meta_keys (meta1 meta2 : Meta) (title : option string)
    (k : string) :
  is_Some (merge_meta meta1 meta2 title !! k) <->
  is_Some (meta1 !! k) \/ is_Some (meta2 !! k)
  \/ (k = "title" /\ is_Some title).
Proof.
  rewrite merge_meta_lookup.
  destruct (meta2 !! k) as [v2|] eqn:H2.
  { split; [intros _; right; left; eauto | intros _; eauto]. }
  destruct (meta1 !! k) as [v1|] eqn:H1.
  { split; [intros _; left; eauto | intros _; eauto]. }
  case_decide as Hk.
  - destruct title as [t|]; cbn.
    + split; [intros _; right; right; eauto | intros _; eauto].
    + split; [intros [? [=]] |].
      intros [[? [=]] | [[? [=]] | [_ [? [=]]]]].
  - split; [intros [? [=]] |].
    intros [[? [=]] | [[? [=]] | [Hk' _]]]. contradiction.
Qed.

(** X4: merging the front-matter metadata a second time changes
    nothing. *)
Theorem merge_meta_idempotent (meta1 meta2 : Meta) (title : option string) :
  merge_meta (merge_meta meta1 meta2 title) meta2 title =
  merge_meta meta1 meta2 title.
Proof.
  apply map_eq. intros k. rewrite !merge_meta_lookup.
  destruct (meta2 !! k); [reflexivity |].
  destruct (meta1 !! k); [reflexivity |].
  case_decide; [| reflexivity].
  destruct title; reflexivity.
Qed.

(** The value of [title]: the front matter's, else the engine's, else
    the derived one. *)
Lemma merge_meta_title (meta1 meta2 : Meta) (title : option string) :
  merge_meta meta1 meta2 title !! "title" =
  match meta2 !! "title" with
  | Some v => Some v
  | None =>
      match meta1 !! "title" with
      | Some v => Some v
      | None => VStr <$> title
      end
  end.
Proof.
  rewrite merge_meta_lookup. rewrite decide_True by reflexivity. reflexivity.
Qed.

(** ** Reference files *)

Section ReferenceFacts.
Context (E : Env) (basepath : option string).

Lemma resolve_reference_sound file_name ref_path :
  resolve_reference E basepath file_name = Some ref_path ->
  is_regular_file E ref_path = true.
Proof.
  unfold resolve_reference. intros H.
  repeat match type of H with
         | context [if is_regular_file E ?p then _ else _] =>
             destruct (is_regular_file E p) eqn:?
         | context [negb (is_absolute E ?f)] =>
             destruct (is_absolute E f); cbn in H
         | context [match basepath with _ => _ end] =>
             destruct basepath; cbn in H
         end;
    try discriminate H; injection H as <-; assumption.
Qed.

Lemma loaded_paths_app t1 t2 :
  loaded_paths (t1 ++ t2) = loaded_paths t1 ++ loaded_paths t2.
Proof.
  induction t1 as [|e t1 IH]; [reflexivity |].
  destruct e; cbn; rewrite ?IH; reflexivity.
Qed.

Lemma loaded_text_app t1 t2 :
  loaded_text E (t1 ++ t2) = loaded_text E t1 +:+ loaded_text E t2.
Proof.
  induction t1 as [|e t1 IH]; [reflexivity |].
  destruct e; cbn; rewrite ?IH, ?str_app_assoc; reflexivity.
Qed.

(** One entry makes one call; a load is of a regular file and adds the
    loaded text, an error adds nothing. *)
Lemma get_references_step_facts text enc entry :
  let r := get_references_step E basepath (text, enc) entry in
  length (fst r) = 1%nat
  /\ Forall (fun e => is_reference_call e = true) (fst r)
  /\ Forall (fun p => is_regular_file E p = true) (loaded_paths (fst r))
  /\ fst (snd r) = text +:+ loaded_text E (fst r).
Proof.
  cbv zeta. unfold get_references_step.
  destruct (splitenc E entry enc) as [file_name enc'].
  destruct (resolve_reference E basepath file_name) as [ref_path|] eqn:Hres; cbn.
  - apply resolve_reference_sound in Hres.
    rewrite str_app_nil_r. repeat split; repeat constructor; assumption.
  - rewrite str_app_nil_r. repeat split; repeat constructor.
Qed.

Lemma get_references_loop_facts references text enc :
  let r := foldM (get_references_step E basepath) (text, enc) references in
  length (fst r) = length references
  /\ Forall (fun e => is_reference_call e = true) (fst r)
  /\ Forall (fun p => is_regular_file E p = true) (loaded_paths (fst r))
  /\ fst (snd r) = text +:+ loaded_text E (fst r).
Proof.
  cbv zeta. revert text enc.
  induction references as [|entry l IH]; intros text enc; cbn [foldM].
  - cbn. rewrite str_app_nil_r. repeat split; constructor.
  - rewrite bind_pair. cbn [fst snd].
    destruct (get_references_step_facts text enc entry) as (Hlen & Hcalls & Hreg & Htext).
    destruct (get_references_step E basepath (text, enc) entry)
      as [t1 [text1 enc1]]. cbn [fst snd] in *.
    destruct (IH text1 enc1) as (Hlen' & Hcalls' & Hreg' & Htext').
    rewrite length_app, Hlen, Hlen', loaded_paths_app, loaded_text_app.
    repeat split.
    + apply Forall_app; split; assumption.
    + apply Forall_app; split; assumption.
    + rewrite Htext', Htext, str_app_assoc. reflexivity.
Qed.

End ReferenceFacts.

Lemma get_references_unfold (E : Env) (references : list string)
    (basepath : option string) (enc : string) :
  get_references E references basepath enc =
  (fst (foldM (get_references_step E basepath) (EmptyString, enc) references),
   fst (snd (foldM (get_references_step E basepath) (EmptyString, enc)
               references))).
Proof.
  unfold get_references. rewrite bind_pair. cbn. rewrite app_nil_r. reflexivity.
Qed.

(** X5: [get_references] only ever loads existing regular files: every
    path handed to [load_text_resource] passed the
    [exists]-and-[isfile] test. *)
Theorem get_references_loads_regular_files (E : Env)
    (references : list string) (basepath : option string) (enc : string) :
  Forall (fun p => is_regular_file E p = true)
         (loaded_paths (fst (get_references E references basepath enc))).
Proof.
  rewrite get_references_unfold. cbn [fst].
  apply (get_references_loop_facts E basepath references EmptyString enc).
Qed.

Lemma get_references_text_of_loads_aux (E : Env) (references : list string)
    (basepath : option string) (enc : string) :
  let r := get_references E references basepath enc in
  length (fst r) = length references
  /\ Forall (fun e => is_reference_call e = true) (fst r)
  /\ snd r = loaded_text E (fst r).
Proof.
  cbv zeta. rewrite get_references_unfold. cbn [fst snd].
  destruct (get_references_loop_facts E basepath references EmptyString enc)
    as (Hlen & Hcalls & _ & Htext).
  repeat split; assumption.
Qed.

(** X6: [get_references] makes one call per entry, a load or an error
    log, and the text it returns is the text of the loads, in order:
    entries that are not found add nothing. *)
Theorem get_references_text_of_loads (E : Env) (references : list string)
    (basepath : option string) (enc : string) :
  let r := get_references E references basepath enc in
  length (fst r) = length references
  /\ Forall (fun e => is_reference_call e = true) (fst r)
  /\ snd r = loaded_text E (fst r).
Proof. apply get_references_text_of_loads_aux. Qed.

(** X7: over a concatenated list, [get_references] returns the text of
    the first part followed by the text of the second part, the second
    part being read with the encoding left by the first; and the
    encoding left by a list is the one split off its last entry. *)
Theorem get_references_app (E : Env) (l1 l2 : list string)
    (basepath : option string) (enc : string) :
  let enc1 := encoding_after E basepath enc l1 in
  get_references E (l1 ++ l2) basepath enc =
  (fst (get_references E l1 basepath enc)
   ++ fst (get_references E l2 basepath enc1),
   snd (get_references E l1 basepath enc)
   +:+ snd (get_references E l2 basepath enc1))
  /\ forall entry,
       encoding_after E basepath enc (l1 ++ [entry]) =
       snd (splitenc E entry enc1).
Proof.
  cbv zeta. unfold encoding_after. split.
  - rewrite !get_references_unfold, foldM_app, bind_pair. cbn [fst snd].
    destruct (foldM (get_references_step E basepath) (EmptyString, enc) l1)
      as [t1 [text1 enc1]]. cbn [fst snd].
    rewrite (get_references_loop_text E basepath l2 text1 enc1).
    reflexivity.
  - intros entry. rewrite foldM_app, bind_pair. cbn [fst snd foldM].
    destruct (foldM (get_references_step E basepath) (EmptyString, enc) l1)
      as [t1 [text1 enc1]]. cbn [fst snd].
    rewrite bind_pair. cbn [fst snd]. unfold get_references_step.
    destruct (splitenc E entry enc1) as [file_name enc'].
    destruct (resolve_reference E basepath file_name); reflexivity.
Qed.

(** ** The critic dump, case by case *)

Section CriticDumpCases.
Context {F : CriticFlags} (E : Env) (self : Convert).

Lemma critic_dump_cases file_name text :
  let call := ConfigGet file_name (basepath self) (output self) ∅ in
  let reads := fst (read_stage E self file_name text) in
  let accept := Z.land (critic (config self)) CRITIC_ACCEPT in
  let view := Z.land (critic (config self)) CRITIC_VIEW in
  critic_dump E self file_name text =
  match config_get E file_name (basepath self) (output self) ∅ with
  | None => ([call; LogTraceback], FAIL)
  | Some settings =>
      match source_text E self file_name text with
      | None => (call :: reads, FAIL)
      | Some raw =>
          if Z.land (critic (config self)) (Z.lor CRITIC_REJECT CRITIC_ACCEPT) =? 0
          then (call :: reads ++ [LogError ambiguous_dump], FAIL)
          else if formatter_Text E (page_destination settings)
                    (output_encoding (config self))
          then (call :: reads
                ++ [TextCreate (page_destination settings)
                      (output_encoding (config self));
                    CriticDumpCall raw accept view;
                    TextWrite (CriticDump_dump E raw accept view);
                    TextClose], PASS)
          else (call :: reads
                ++ [TextCreate (page_destination settings)
                      (output_encoding (config self));
                    LogError "Failed to create text file!"], FAIL)
      end
  end.
Proof.
  cbv zeta. unfold critic_dump, get_file_settings.
  rewrite bind_pair. rewrite (bind_pair (emit _)). cbn [fst snd emit].
  destruct (config_get E file_name (basepath self) (output self) ∅) as [s|];
    [| reflexivity].
  cbn [fst snd mret M_ret app]. rewrite bind_pair, read_stage_spec.
  cbn [fst snd].
  destruct (source_text E self file_name text) as [raw|];
    [| cbn; rewrite app_nil_r; reflexivity].
  destruct (Z.land (critic (config self)) (Z.lor CRITIC_REJECT CRITIC_ACCEPT) =? 0);
    [reflexivity |].
  rewrite bind_pair. cbn [fst snd emit].
  destruct (formatter_Text E _ _); reflexivity.
Qed.

(** The calls of the read stage end with an error when it fails and
    hold none when it succeeds. *)
Lemma read_stage_calls file_name text :
  let reads := fst (read_stage E self file_name text) in
  match source_text E self file_name text with
  | None => exists f, file_name = Some f
                      /\ reads = [OpenRead f (encoding (config self));
                                  LogError ("Failed to open " +:+ f +:+ "!")]
  | Some raw =>
      reads = match file_name with
              | Some f => [OpenRead f (encoding (config self))]
              | None => []
              end
  end.
Proof.
  cbv zeta. rewrite read_stage_spec. unfold source_text. cbn [fst].
  destruct file_name as [fn|]; [| reflexivity].
  destruct (open_read E fn (encoding (config self))); eauto.
Qed.

End CriticDumpCases.

(** X8: a run of [critic_dump] either returns PASS, having logged no
    error and ending with the creation of the text output, the
    resolution of the source text as read, the write of its result and
    the close; or returns FAIL, having resolved and written nothing,
    with an error log as its last call. *)
Theorem critic_dump_writes_or_fails {F : CriticFlags} (E : Env)
    (self : Convert) (file_name text : option string) :
  let r := critic_dump E self file_name text in
  (snd r = PASS
   /\ existsb is_error_log (fst r) = false
   /\ exists calls raw destination,
        source_text E self file_name text = Some raw
        /\ fst r =
           calls
           ++ [TextCreate destination (output_encoding (config self));
               CriticDumpCall raw
                 (Z.land (critic (config self)) CRITIC_ACCEPT)
                 (Z.land (critic (config self)) CRITIC_VIEW);
               TextWrite
                 (CriticDump_dump E raw
                    (Z.land (critic (config self)) CRITIC_ACCEPT)
                    (Z.land (critic (config self)) CRITIC_VIEW));
               TextClose])
  \/ (snd r = FAIL
      /\ existsb is_dump_write (fst r) = false
      /\ exists calls e, fst r = calls ++ [e] /\ is_error_log e = true).
Proof.
  cbv zeta. rewrite critic_dump_cases.
  pose proof (read_stage_calls E self file_name text) as Hreads.
  cbv zeta in Hreads.
  destruct (config_get E file_name (basepath self) (output self) ∅) as [s|].
  2:{ right. repeat split. eexists [_], _. split; reflexivity. }
  destruct (source_text E self file_name text) as [raw|].
  2:{ right. destruct Hreads as (f & -> & ->). repeat split.
      eexists [_; _], _. split; reflexivity. }
  rewrite Hreads.
  destruct (Z.land (critic (config self)) (Z.lor CRITIC_REJECT CRITIC_ACCEPT) =? 0).
  { right. destruct file_name; repeat split.
    - eexists [_; _], _. split; reflexivity.
    - eexists [_], _. split; reflexivity. }
  destruct (formatter_Text E _ _).
  - left. split; [reflexivity |]. split; [destruct file_name; reflexivity |].
    eexists (_ :: _), raw, _. split; [reflexivity |]. reflexivity.
  - right. destruct file_name; repeat split.
    + eexists [_; _; _], _. split; reflexivity.
    + eexists [_; _], _. split; reflexivity.
Qed.

(** X9: when the mode comes from [get_critic_mode], a dump that reaches
    the critic resolution was asked with exactly one of [--accept] and
    [--reject], is resolved with the Accept flag when [--accept] was
    given and with 0 otherwise, and its view argument is always 0. *)
Theorem critic_dump_resolution_follows_options {F : CriticFlags} (E : Env)
    (self : Convert) (args : Args) (file_name text raw : option string)
    (a v : Z) :
  flags_independent F ->
  critic (config self) = get_critic_mode args ->
  In (CriticDumpCall raw a v) (fst (critic_dump E self file_name text)) ->
  xorb (accept args) (reject args) = true
  /\ a = (if accept args then CRITIC_ACCEPT else 0)
  /\ v = 0.
Proof.
  intros Hind Hmode Hin.
  assert (Hcall : (Z.land (critic (config self))
                     (Z.lor CRITIC_REJECT CRITIC_ACCEPT) =? 0) = false
                  /\ a = Z.land (critic (config self)) CRITIC_ACCEPT
                  /\ v = Z.land (critic (config self)) CRITIC_VIEW).
  { rewrite critic_dump_cases in Hin.
    pose proof (read_stage_calls E self file_name text) as Hreads.
    cbv zeta in Hreads.
    destruct (config_get E file_name (basepath self) (output self) ∅) as [s|].
    2:{ destruct Hin as [H | [H | []]]; discriminate H. }
    destruct (source_text E self file_name text) as [src|].
    2:{ destruct Hreads as (f & -> & Hr). cbn [fst] in Hin. rewrite Hr in Hin.
        destruct Hin as [H | [H | [H | []]]]; discriminate H. }
    rewrite Hreads in Hin.
    destruct (Z.land (critic (config self)) (Z.lor CRITIC_REJECT CRITIC_ACCEPT) =? 0).
    { destruct file_name; cbn in Hin;
        repeat (destruct Hin as [Hin | Hin]; [discriminate Hin |]);
        contradiction. }
    destruct (formatter_Text E _ _); destruct file_name; cbn in Hin;
      repeat (destruct Hin as [Hin | Hin];
              [first [discriminate Hin | injection Hin as <- <- <-; auto] |]);
      contradiction. }
  destruct Hcall as (Htest & -> & ->). rewrite Hmode in *.
  pose proof (fi_ignore_accept F Hind) as Hia.
  pose proof (fi_ignore_reject F Hind) as Hir.
  pose proof (fi_ignore_view F Hind) as Hiv.
  pose proof (fi_accept_reject F Hind) as Har.
  pose proof (fi_accept_view F Hind) as Hav.
  pose proof (fi_reject_view F Hind) as Hrv.
  pose proof (fi_view_dump F Hind) as Hvd.
  pose proof (fi_accept_dump F Hind) as Had.
  pose proof (fi_reject_dump F Hind) as Hrd.
  assert (Hra : Z.land CRITIC_REJECT CRITIC_ACCEPT = 0)
    by (rewrite Z.land_comm; exact Har).
  assert (Hva : Z.land CRITIC_VIEW CRITIC_ACCEPT = 0)
    by (rewrite Z.land_comm; exact Hav).
  assert (Hvr : Z.land CRITIC_VIEW CRITIC_REJECT = 0)
    by (rewrite Z.land_comm; exact Hrv).
  assert (Hdv : Z.land CRITIC_DUMP CRITIC_VIEW = 0)
    by (rewrite Z.land_comm; exact Hvd).
  assert (Hda : Z.land CRITIC_DUMP CRITIC_ACCEPT = 0)
    by (rewrite Z.land_comm; exact Had).
  assert (Hdr : Z.land CRITIC_DUMP CRITIC_REJECT = 0)
    by (rewrite Z.land_comm; exact Hrd).
  destruct args as [[] [] []]; unfold get_critic_mode in *; cbn in *;
    rewrite ?Z.land_lor_distr_l, ?Z.land_lor_distr_r, ?Z.land_diag,
      ?Hia, ?Hir, ?Hiv, ?Har, ?Hav, ?Hrv, ?Hvd, ?Had, ?Hrd,
      ?Hra, ?Hva, ?Hvr, ?Hdv, ?Hda, ?Hdr, ?Z.lor_0_l, ?Z.lor_0_r in *;
    try discriminate Htest; repeat split; reflexivity.
Qed.

Lemma critic_dump_resolution_follows_options_witness :
  xorb true false = true
  /\ 1 = @CRITIC_ACCEPT bit_flags
  /\ 0 = 0.
Proof.
  apply (critic_dump_resolution_follows_options (F := bit_flags) sample.env
           sample.dump_accept
           {| accept := true; reject := false; critic_dump_arg := true |}
           (Some "/doc/a.md") None (Some sample.doc_text) 1 0).
  - exact bit_flags_independent.
  - reflexivity.
  - vm_compute. do 3 right. left. reflexivity.
Defined.

(** ** Rendering, case by case *)

Lemma count_calls_app test t1 t2 :
  count_calls test (t1 ++ t2) = (count_calls test t1 + count_calls test t2)%nat.
Proof. unfold count_calls. rewrite List.filter_app, length_app. reflexivity. Qed.

Lemma count_calls_none test calls :
  Forall (fun e => test e = false) calls -> count_calls test calls = 0%nat.
Proof.
  unfold count_calls. induction 1 as [|e l He _ IH]; [reflexivity |].
  cbn. rewrite He. exact IH.
Qed.

Lemma count_calls_zero_iff test calls :
  count_calls test calls = 0%nat <-> existsb test calls = false.
Proof.
  unfold count_calls. induction calls as [|e l IH]; [tauto |].
  cbn. destruct (test e); cbn; [split; discriminate | exact IH].
Qed.

(** A test that no call of [get_references] passes counts none of
    them. *)
Lemma count_calls_references test (E : Env) references basepath enc :
  (forall e, is_reference_call e = true -> test e = false) ->
  count_calls test (fst (get_references E references basepath enc)) = 0%nat.
Proof.
  intros Htest. apply count_calls_none.
  destruct (get_references_text_of_loads_aux E references basepath enc)
    as (_ & Hcalls & _).
  eapply Forall_impl; [exact Hcalls |]. exact Htest.
Qed.

Section RenderCases.
Context (E : Env) (self : Convert).

Lemma html_dump_cases file_name text :
  let reads := fst (read_stage E self file_name text) in
  html_dump E self file_name text =
  match source_text E self file_name text with
  | None => (reads, FAIL)
  | Some raw =>
      let fm := fst (get_frontmatter_string E raw) in
      let body := snd (get_frontmatter_string E raw) in
      let front :=
        reads ++ [GetFrontmatter raw;
                  ConfigGet file_name (basepath self) (output self) fm] in
      match config_get E file_name (basepath self) (output self) fm with
      | None => (front ++ [LogTraceback], FAIL)
      | Some settings =>
          let refs := get_references E (page_references settings)
                        (page_basepath settings) (encoding (config self)) in
          let text := body +:+ snd refs in
          match formatter_Html E (config self) settings with
          | None =>
              (front ++ fst refs ++ [HtmlCreate settings; LogTraceback], FAIL)
          | Some name =>
              match md_convert E (config self) settings name text with
              | None =>
                  (front ++ fst refs
                   ++ [HtmlCreate settings; MdConvert text; LogTraceback;
                       HtmlClose], FAIL)
              | Some (markdown, engine) =>
                  (front ++ fst refs
                   ++ [HtmlCreate settings; MdConvert text;
                       HtmlSetMeta
                         (merge_meta engine (page_meta settings)
                            (get_title (getcwd E) file_name (title self)));
                       HtmlWrite (if clean (config self)
                                  then scrub E markdown else markdown);
                       HtmlClose]
                   ++ match name with
                      | Some n =>
                          if preview (config self) then [AutoOpen n] else []
                      | None => []
                      end, PASS)
              end
          end
      end
  end.
Proof.
  cbv zeta.
  destruct (source_text E self file_name text) as [raw|] eqn:Hsrc.
  2:{ unfold html_dump. rewrite bind_pair, read_stage_spec, Hsrc. cbn.
      rewrite app_nil_r. reflexivity. }
  destruct (get_frontmatter_string E raw) as [fm body] eqn:Hfm. cbn [fst snd].
  pose proof (read_stage_calls E self file_name text) as Hreads.
  cbv zeta in Hreads. rewrite Hsrc in Hreads.
  destruct (config_get E file_name (basepath self) (output self) fm)
    as [settings|] eqn:Hcfg.
  2:{ unfold html_dump, strip_frontmatter, get_file_settings.
      rewrite bind_pair, read_stage_spec, Hsrc. cbn [fst snd].
      rewrite bind_pair. cbn [fst snd emit]. rewrite bind_pair. cbn [fst snd].
      rewrite ret_pair. cbn [fst snd]. rewrite Hfm.
      rewrite bind_pair. cbn [fst snd]. rewrite Hcfg.
      rewrite read_stage_spec in Hreads. cbn [fst] in Hreads. rewrite Hreads.
      cbn. rewrite ?app_nil_r, <- ?app_assoc. reflexivity. }
  destruct (formatter_Html E (config self) settings) as [name|] eqn:Hhtml.
  2:{ unfold html_dump, strip_frontmatter, get_file_settings.
      rewrite bind_pair, read_stage_spec, Hsrc. cbn [fst snd].
      rewrite bind_pair. cbn [fst snd emit]. rewrite bind_pair. cbn [fst snd].
      rewrite ret_pair. cbn [fst snd]. rewrite Hfm.
      rewrite bind_pair. cbn [fst snd]. rewrite Hcfg.
      rewrite bind_pair. cbn [fst snd]. rewrite ret_pair. cbn [fst snd].
      rewrite bind_pair. cbn [fst snd].
      rewrite bind_pair. cbn [fst snd emit]. rewrite Hhtml.
      rewrite read_stage_spec in Hreads. cbn [fst] in Hreads. rewrite Hreads.
      cbn. rewrite ?app_nil_r, <- ?app_assoc. reflexivity. }
  destruct (md_convert E (config self) settings name _)
    as [[markdown engine]|] eqn:Hmd.
  - rewrite (html_dump_pass E self _ _ _ _ _ _ _ _ _ Hsrc Hfm Hcfg Hhtml Hmd).
    rewrite Hreads. rewrite <- ?app_assoc. reflexivity.
  - unfold html_dump, strip_frontmatter, get_file_settings.
    rewrite bind_pair, read_stage_spec, Hsrc. cbn [fst snd].
    rewrite bind_pair. cbn [fst snd emit]. rewrite bind_pair. cbn [fst snd].
    rewrite ret_pair. cbn [fst snd]. rewrite Hfm.
    rewrite bind_pair. cbn [fst snd]. rewrite Hcfg.
    rewrite bind_pair. cbn [fst snd]. rewrite ret_pair. cbn [fst snd].
    rewrite bind_pair. cbn [fst snd].
    rewrite bind_pair. cbn [fst snd emit]. rewrite Hhtml.
    rewrite bind_pair. cbn [fst snd]. rewrite Hmd.
    rewrite read_stage_spec in Hreads. cbn [fst] in Hreads. rewrite Hreads.
    cbn. rewrite ?app_nil_r, <- ?app_assoc. reflexivity.
Qed.

End RenderCases.

Lemma reference_call_in (E : Env) references bp enc e :
  In e (fst (get_references E references bp enc)) ->
  is_reference_call e = true.
Proof.
  intros Hin.
  destruct (get_references_text_of_loads_aux E references bp enc)
    as (_ & Hcalls & _).
  rewrite List.Forall_forall in Hcalls. apply Hcalls, Hin.
Qed.

Lemma app_tail_split (calls : list event) a b c d e f :
  calls ++ [a; b; c; d; e] ++ [f] = (calls ++ [a; b; c; d]) ++ [e; f].
Proof. rewrite <- app_assoc. reflexivity. Qed.

(** The outcome of [html_dump] on each of its paths, by counts. *)
Ltac render_leaf :=
  cbn [fst snd];
  rewrite ?count_calls_app, ?existsb_app;
  rewrite ?count_calls_references by (intros []; cbn; congruence);
  cbn; rewrite ?orb_true_r; try reflexivity.

Ltac render_paths E self file_name :=
  cbv zeta; rewrite html_dump_cases, read_stage_spec;
  unfold source_text; cbn [fst];
  destruct file_name as [?fn|];
  [match goal with
   | |- context [open_read E ?f ?enc] =>
       destruct (open_read E f enc) as [?src|] eqn:?
   end |];
  cbv zeta;
  repeat match goal with
         | |- context [config_get E ?a ?b ?c ?d] =>
             destruct (config_get E a b c d) as [?settings|] eqn:?
         | |- context [formatter_Html E ?c ?s] =>
             destruct (formatter_Html E c s) as [[?n|]|] eqn:?
         | |- context [md_convert E ?c ?s ?n ?t] =>
             destruct (md_convert E c s n t) as [[?markdown ?engine]|] eqn:?
         | |- context [preview ?c] => destruct (preview c) eqn:?
         end.

(** X10: [html_dump] writes the output exactly when it returns PASS:
    on PASS it made one write and one close; on FAIL it wrote nothing,
    opened no preview and logged an error. *)
Theorem html_dump_writes_or_fails (E : Env) (self : Convert)
    (file_name text : option string) :
  let r := html_dump E self file_name text in
  (snd r = PASS
   /\ count_calls is_html_write (fst r) = 1%nat
   /\ count_calls is_html_close (fst r) = 1%nat)
  \/ (snd r = FAIL
      /\ count_calls is_html_write (fst r) = 0%nat
      /\ count_calls is_auto_open (fst r) = 0%nat
      /\ existsb is_error_log (fst r) = true).
Proof.
  render_paths E self file_name;
    solve [left; repeat split; render_leaf
          | right; repeat split; render_leaf].
Qed.

(** X11: [html_dump] opens a preview only when the preview option is
    set and the conversion passed; the preview is then its last call,
    made after the output was closed, on the file the output was written
    to. *)
Theorem html_dump_preview_last (E : Env) (self : Convert)
    (file_name text : option string) (name : string) :
  In (AutoOpen name) (fst (html_dump E self file_name text)) ->
  preview (config self) = true
  /\ snd (html_dump E self file_name text) = PASS
  /\ (exists settings,
        In (HtmlCreate settings) (fst (html_dump E self file_name text))
        /\ formatter_Html E (config self) settings = Some (Some name))
  /\ exists calls,
       fst (html_dump E self file_name text) =
       calls ++ [HtmlClose; AutoOpen name].
Proof.
  intros Hin. revert Hin. render_paths E self file_name; cbn [fst snd];
    rewrite ?in_app_iff; intros Hin;
    repeat match goal with
           | H : _ \/ _ |- _ => destruct H
           | H : In _ (fst (get_references _ _ _ _)) |- _ =>
               apply reference_call_in in H; discriminate H
           | H : In _ (_ :: _) |- _ => cbn in H
           | H : In _ [] |- _ => destruct H
           | H : False |- _ => destruct H
           | H : AutoOpen _ = AutoOpen _ |- _ => injection H as ->
           | H : _ = AutoOpen _ |- _ => discriminate H
           end.
  all: split; [reflexivity |]; split; [reflexivity |]; split.
  all: try (eexists; split; [| eassumption];
            rewrite !in_app_iff; right; right; left; left; reflexivity).
  all: rewrite app_assoc, app_tail_split; eexists; reflexivity.
Qed.

Lemma html_dump_preview_last_witness :
  preview (config sample_previewing) = true
  /\ snd (html_dump sample.env sample_previewing (Some "/doc/a.md") None) = PASS
  /\ (exists settings,
        In (HtmlCreate settings)
           (fst (html_dump sample.env sample_previewing (Some "/doc/a.md") None))
        /\ formatter_Html sample.env (config sample_previewing) settings =
           Some (Some "/doc/out.html"))
  /\ exists calls,
       fst (html_dump sample.env sample_previewing (Some "/doc/a.md") None) =
       calls ++ [HtmlClose; AutoOpen "/doc/out.html"].
Proof.
  apply (html_dump_preview_last sample.env sample_previewing
           (Some "/doc/a.md") None "/doc/out.html").
  vm_compute. do 11 right. left. reflexivity.
Defined.


(** ** The whole batch *)

Section BatchFacts.
Context {F : CriticFlags} (E : Env) (self : Convert).

(** A property of lists of calls that holds of the logs of [convert],
    of the calls of each document, and of concatenations, holds of the
    calls of [convert]. *)
Lemma convert_calls_ind (P : list event -> Prop) :
  P [] ->
  (forall t1 t2, P t1 -> P t2 -> P (t1 ++ t2)) ->
  (forall msg, P [LogInfo msg]) ->
  P [LogError "Nothing to parse!"] ->
  (forall d, P (fst (convert_one E self d))) ->
  forall files, P (fst (convert E self files)).
Proof.
  intros Hnil Happ Hinfo Hguard Hdoc files.
  assert (Hloop : forall l status, P (fst (convert_loop E self l status))).
  { induction l as [|d rest IH]; intros status; cbn [convert_loop].
    - exact Hnil.
    - destruct (negb (status =? PASS)); [exact Hnil |].
      rewrite !bind_fst. apply Happ; [| apply Happ].
      + unfold announce. destruct (is_stream (config self)); apply Hinfo.
      + destruct (status =? PASS); [apply Hdoc | exact Hnil].
      + apply IH. }
  unfold convert. destruct (nothing_to_parse files); [exact Hguard |].
  destruct files as [l|]; [apply Hloop | exact Hnil].
Qed.

Lemma convert_count_zero test :
  (forall msg, test (LogInfo msg) = false) ->
  (forall msg, test (LogError msg) = false) ->
  (forall d, count_calls test (fst (convert_one E self d)) = 0%nat) ->
  forall files, count_calls test (fst (convert E self files)) = 0%nat.
Proof.
  intros Hinfo Herr Hdoc.
  apply (convert_calls_ind (fun t => count_calls test t = 0%nat)).
  - reflexivity.
  - intros t1 t2 H1 H2. rewrite count_calls_app, H1, H2. reflexivity.
  - intros msg. unfold count_calls. cbn. rewrite Hinfo. reflexivity.
  - unfold count_calls. cbn. rewrite Herr. reflexivity.
  - exact Hdoc.
Qed.

Ltac dump_paths file_name :=
  rewrite critic_dump_cases, read_stage_spec; unfold source_text; cbn [fst];
  destruct file_name as [?fn|];
  [match goal with
   | |- context [open_read E ?f ?enc] =>
       destruct (open_read E f enc) as [?src|] eqn:?
   end |];
  cbv zeta;
  repeat match goal with
         | |- context [config_get E ?a ?b ?c ?d] =>
             destruct (config_get E a b c d) as [?settings|] eqn:?
         | |- context [(Z.land ?m ?f =? 0)] =>
             destruct (Z.land m f =? 0) eqn:?
         | |- context [formatter_Text E ?d ?enc] =>
             destruct (formatter_Text E d enc) eqn:?
         end.

Ltac count_leaf :=
  cbn [fst snd];
  rewrite ?count_calls_app;
  rewrite ?count_calls_references by (intros []; cbn; congruence);
  unfold count_calls; cbn;
  repeat match goal with
         | H : formatter_Html _ _ _ = _ |- _ => rewrite H
         | H : formatter_Text _ _ _ = _ |- _ => rewrite H
         end;
  try reflexivity.

Lemma critic_dump_no_render file_name text :
  count_calls is_render_call (fst (critic_dump E self file_name text)) = 0%nat.
Proof. dump_paths file_name; count_leaf. Qed.

Lemma html_dump_no_dump file_name text :
  count_calls is_dump_output (fst (html_dump E self file_name text)) = 0%nat.
Proof. render_paths E self file_name; count_leaf. Qed.

Lemma critic_dump_stream_no_read text :
  count_calls is_source_read (fst (critic_dump E self None text)) = 0%nat.
Proof.
  rewrite critic_dump_cases, read_stage_spec. unfold source_text. cbn [fst].
  destruct (config_get E _ _ _ _); [| reflexivity].
  destruct (_ =? 0); [reflexivity |].
  destruct (formatter_Text E _ _); reflexivity.
Qed.

Lemma html_dump_stream_no_read text :
  count_calls is_source_read (fst (html_dump E self None text)) = 0%nat.
Proof.
  rewrite html_dump_cases, read_stage_spec. unfold source_text. cbn [fst].
  cbv zeta.
  repeat match goal with
         | |- context [config_get E ?a ?b ?c ?d] =>
             destruct (config_get E a b c d) as [?settings|] eqn:?
         | |- context [formatter_Html E ?c ?s] =>
             destruct (formatter_Html E c s) as [[?n|]|] eqn:?
         | |- context [md_convert E ?c ?s ?n ?t] =>
             destruct (md_convert E c s n t) as [[?markdown ?engine]|] eqn:?
         | |- context [preview ?c] => destruct (preview c) eqn:?
         end; count_leaf.
Qed.

Lemma critic_dump_balanced file_name text :
  count_calls is_closed_output (fst (critic_dump E self file_name text)) =
  count_calls (is_opened_output E self) (fst (critic_dump E self file_name text)).
Proof. dump_paths file_name; count_leaf. Qed.

Lemma html_dump_balanced file_name text :
  count_calls is_closed_output (fst (html_dump E self file_name text)) =
  count_calls (is_opened_output E self) (fst (html_dump E self file_name text)).
Proof. render_paths E self file_name; count_leaf. Qed.

End BatchFacts.

(** X12: in a run of [convert] that returns a status, the calls made
    outside [try] having returned, every output that was created is
    closed and nothing else is, on the paths that end in FAIL as on
    those that end in PASS: the calls to [close] are as many as the
    constructors of [formatter.Html] and [formatter.Text] that
    returned. *)
Theorem convert_closes_what_it_opens {F : CriticFlags} (E : Env)
    (self : Convert) (files : option (list (option string))) :
  count_calls is_closed_output (fst (convert E self files)) =
  count_calls (is_opened_output E self) (fst (convert E self files)).
Proof.
  apply (convert_calls_ind E self
           (fun t => count_calls is_closed_output t =
                     count_calls (is_opened_output E self) t)).
  - reflexivity.
  - intros t1 t2 H1 H2. rewrite !count_calls_app, H1, H2. reflexivity.
  - reflexivity.
  - reflexivity.
  - intros d. unfold convert_one.
    destruct (negb _); [apply critic_dump_balanced | apply html_dump_balanced].
Qed.

(** X13: the Dump flag decides the branch for the whole run: with it,
    [convert] never calls the HTML output, the markdown engine or the
    preview; without it, [convert] never creates the text output nor
    calls the critic resolution. *)
Theorem convert_dump_or_render {F : CriticFlags} (E : Env) (self : Convert)
    (files : option (list (option string))) :
  if has_flag (critic (config self)) CRITIC_DUMP
  then count_calls is_render_call (fst (convert E self files)) = 0%nat
  else count_calls is_dump_output (fst (convert E self files)) = 0%nat.
Proof.
  unfold has_flag.
  destruct (negb (Z.land (critic (config self)) CRITIC_DUMP =? 0)) eqn:Hd;
    apply convert_count_zero; try reflexivity;
    intros d; unfold convert_one; rewrite Hd;
    [apply critic_dump_no_render | apply html_dump_no_dump].
Qed.

(** X14: when the input is a stream, [convert] opens no source file:
    each document is the text it was given. *)
Theorem convert_stream_reads_no_file {F : CriticFlags} (E : Env)
    (self : Convert) (files : option (list (option string))) :
  is_stream (config self) = true ->
  count_calls is_source_read (fst (convert E self files)) = 0%nat.
Proof.
  intros Hstream. apply convert_count_zero; try reflexivity.
  intros d. unfold convert_one. rewrite Hstream. cbn [negb].
  destruct (negb _);
    [apply critic_dump_stream_no_read | apply html_dump_stream_no_read].
Qed.

Lemma convert_stream_reads_no_file_witness :
  count_calls is_source_read
    (fst (convert (F := sample.flags) sample.env sample_streaming
            (Some [Some sample.doc_text]))) = 0%nat.
Proof.
  apply (convert_stream_reads_no_file (F := sample.flags) sample.env
           sample_streaming (Some [Some sample.doc_text])).
  reflexivity.
Defined.

Section BatchStatus.
Context {F : CriticFlags} (E : Env) (self : Convert).

Lemma convert_loop_pass_inv files :
  snd (convert_loop E self files PASS) = PASS ->
  Forall (fun d => snd (convert_one E self d) = PASS) files.
Proof.
  induction files as [|d rest IH]; [constructor |].
  rewrite convert_loop_cons. cbn [snd].
  destruct (Z.eq_dec (snd (convert_one E self d)) PASS) as [Hd|Hd].
  - rewrite Hd. intros H. constructor; [exact Hd | apply IH, H].
  - rewrite convert_loop_stopped by exact Hd. cbn [snd]. contradiction.
Qed.

End BatchStatus.

(** X15: [convert] returns PASS exactly when there is something to
    parse and the conversion of every document of the list returns
    PASS; its calls are then those of all the documents, in order. *)
Theorem convert_pass_iff {F : CriticFlags} (E : Env) (self : Convert)
    (files : option (list (option string))) :
  snd (convert E self files) = PASS <->
  exists l,
    files = Some l
    /\ nothing_to_parse files = false
    /\ Forall (fun d => snd (convert_one E self d) = PASS) l
    /\ fst (convert E self files) = concat (map (document_trace E self) l).
Proof.
  unfold convert. split.
  - destruct (nothing_to_parse files) eqn:Hguard; [discriminate |].
    destruct files as [l|]; [| discriminate Hguard].
    intros Hpass. apply convert_loop_pass_inv in Hpass.
    exists l. repeat split; [exact Hpass |].
    rewrite convert_loop_all_pass by exact Hpass. reflexivity.
  - intros (l & -> & -> & Hall & _).
    rewrite convert_loop_all_pass by exact Hall. reflexivity.
Qed.

(** ** The patterns of the extensions *)

Section PatternFacts.
Variable d : ascii.
Variable text : list ascii.

Lemma delim_run_chars i :
  smart.delim_run d text i = true ->
  text !! i = Some d /\ text !! S i = Some d.
Proof.
  unfold smart.delim_run.
  destruct (text !! i) as [a|]; [| discriminate].
  destruct (text !! S i) as [b|]; [| discriminate].
  intros H. apply andb_true_iff in H as [Ha Hb].
  apply Ascii.eqb_eq in Ha, Hb. subst. auto.
Qed.

Lemma smart_match_parts i j :
  smart.smart_match_at d text i j = true ->
  smart.not_preceded_by text (smart.word_or_delim d) i = true
  /\ smart.delim_run d text i = true
  /\ smart.not_followed_by text (smart.delim_or_space d) (i + 2) = true
  /\ (i + 2 < j)%nat
  /\ smart.not_preceded_by text smart.is_space j = true
  /\ smart.delim_run d text j = true
  /\ smart.not_followed_by text (smart.word_or_delim d) (j + 2) = true.
Proof.
  unfold smart.smart_match_at, smart.content_span. intros H.
  apply andb_true_iff in H as [H H7]. apply andb_true_iff in H as [H H6].
  apply andb_true_iff in H as [H H5]. apply andb_true_iff in H as [H H4].
  apply andb_true_iff in H as [H H3]. apply andb_true_iff in H as [H1 H2].
  apply Nat.ltb_lt in H4. auto 10.
Qed.

End PatternFacts.

(** Positions at which the smart pattern can match are positions at
    which the plain pattern can match. *)
Lemma smart_positions_are_plain_positions (d : ascii) (text : list ascii)
    (i j : nat) :
  smart.smart_match_at d text i j = true ->
  mdownx.plain_match_at d text i j = true.
Proof.
  intros H. apply smart_match_parts in H
    as (_ & Hopen & Hafter & Hlen & Hbefore & Hclose & _).
  unfold mdownx.plain_match_at. rewrite !andb_true_iff.
  repeat split; try assumption.
  - unfold smart.not_followed_by in Hafter |- *.
    destruct (text !! (i + 2)%nat) as [c|]; [| reflexivity].
    unfold smart.delim_or_space in Hafter.
    apply negb_true_iff, orb_false_iff in Hafter as [_ Hs].
    rewrite Hs. reflexivity.
  - apply Nat.leb_le. lia.
Qed.

(** The first element of a range that passes a test comes no later
    than any element that passes it. *)
Lemma find_seq_first (P : nat -> bool) (n a j : nat) :
  (a <= j < a + n)%nat -> P j = true ->
  exists j', List.find P (seq a n) = Some j' /\ (j' <= j)%nat.
Proof.
  revert a. induction n as [|n IH]; intros a Hj Hp; [lia |].
  cbn [seq List.find]. destruct (P a) eqn:Ha.
  - exists a. split; [reflexivity | lia].
  - assert (a <> j) by (intros ->; congruence).
    apply IH; [lia | exact Hp].
Qed.

Section PlainSearch.
Variable d : ascii.
Variable text : list ascii.

Lemma plain_match_bounds i j :
  mdownx.plain_match_at d text i j = true ->
  (i + 2 <= j < length text)%nat.
Proof.
  unfold mdownx.plain_match_at. rewrite !andb_true_iff.
  intros [[[[_ _] Hle] _] Hclose].
  apply Nat.leb_le in Hle. apply delim_run_chars in Hclose as [Hj _].
  apply lookup_lt_Some in Hj. lia.
Qed.

Lemma plain_first_close_first i j :
  mdownx.plain_match_at d text i j = true ->
  exists j', mdownx.plain_first_close d text i = Some j' /\ (j' <= j)%nat.
Proof.
  intros H. pose proof (plain_match_bounds i j H) as Hb.
  unfold mdownx.plain_first_close. apply find_seq_first; [lia | exact H].
Qed.

Lemma plain_first_close_sound i j :
  mdownx.plain_first_close d text i = Some j ->
  mdownx.plain_match_at d text i j = true.
Proof.
  unfold mdownx.plain_first_close. intros H. apply find_some in H. apply H.
Qed.

Lemma plain_first_open_first n a i j :
  (a <= i < a + n)%nat ->
  mdownx.plain_first_close d text i = Some j ->
  exists i' j',
    mdownx.plain_first_open d text (seq a n) = Some (i', j')
    /\ mdownx.plain_first_close d text i' = Some j'
    /\ (i' <= i)%nat.
Proof.
  revert a. induction n as [|n IH]; intros a Hi Hclose; [lia |].
  cbn [seq mdownx.plain_first_open].
  destruct (mdownx.plain_first_close d text a) as [j0|] eqn:Ha.
  - exists a, j0. repeat split; [exact Ha | lia].
  - assert (a <> i) by (intros ->; congruence).
    apply IH; [lia | exact Hclose].
Qed.

End PlainSearch.

(** X16: whenever the smart pattern finds a match in a text, the plain
    pattern finds one too; the match of the plain pattern opens at the
    same run or at an earlier one, and when it opens at the same run it
    closes at the same run or at an earlier one. *)
Theorem smart_found_implies_plain_found (d : ascii) (text : list ascii)
    (i j : nat) :
  smart.smart_search d text = Some (i, j) ->
  exists i' j',
    mdownx.plain_search d text = Some (i', j')
    /\ mdownx.plain_match_at d text i' j' = true
    /\ ((i' < i)%nat \/ (i' = i /\ (j' <= j)%nat)).
Proof.
  intros Hs. apply smart_search_sound in Hs.
  apply smart_positions_are_plain_positions in Hs.
  pose proof (plain_match_bounds d text i j Hs) as Hb.
  destruct (plain_first_close_first d text i j Hs) as (j1 & Hj1 & Hle).
  destruct (plain_first_open_first d text (length text) 0 i j1)
    as (i' & j' & Hopen & Hclose & Hi'); [lia | exact Hj1 |].
  exists i', j'. split; [exact Hopen |].
  split; [apply plain_first_close_sound, Hclose |].
  destruct (Nat.eq_dec i' i) as [-> | Hne]; [| left; lia].
  right. split; [reflexivity |]. congruence.
Qed.

Lemma smart_found_implies_plain_found_witness :
  exists i' j',
    mdownx.plain_search smart.tilde (list_ascii_of_string "~~a~~b~~") =
      Some (i', j')
    /\ mdownx.RE_DEL (list_ascii_of_string "~~a~~b~~") i' j' = true
    /\ ((i' < 0)%nat \/ (i' = 0%nat /\ (j' <= 6)%nat)).
Proof.
  apply (smart_found_implies_plain_found smart.tilde
           (list_ascii_of_string "~~a~~b~~") 0 6).
  reflexivity.
Defined.

Example plain_search_nearest_close :
  mdownx.plain_search smart.tilde (list_ascii_of_string "~~a~~b~~") =
    Some (0%nat, 3%nat)
  /\ smart.smart_search smart.tilde (list_ascii_of_string "~~a~~b~~") =
     Some (0%nat, 6%nat).
Proof. split; reflexivity. Qed.

Example plain_search_empty_content :
  mdownx.plain_search smart.tilde (list_ascii_of_string "a~~~~") =
    Some (1%nat, 3%nat)
  /\ smart.smart_search smart.tilde (list_ascii_of_string "a~~~~") = None.
Proof. split; reflexivity. Qed.

(** X17: the content tagged by a smart match is not empty, starts with
    a character that is neither the delimiter nor white space, and ends
    with a character that is not white space. *)
Theorem smart_match_content (d : ascii) (text : list ascii) (i j : nat) :
  smart.smart_match_at d text i j = true ->
  (i + 2 < j)%nat
  /\ (exists c, text !! (i + 2)%nat = Some c
                /\ c <> d /\ smart.is_space c = false)
  /\ (exists c, text !! (j - 1)%nat = Some c /\ smart.is_space c = false).
Proof.
  intros H. apply smart_match_parts in H
    as (_ & Hopen & Hafter & Hlen & Hbefore & Hclose & _).
  apply delim_run_chars in Hclose as [Hj _].
  assert (Hlt : (j < length text)%nat) by (eapply lookup_lt_Some; eassumption).
  split; [exact Hlen |]. split.
  - destruct (lookup_lt_is_Some_2 text (i + 2)%nat) as [c Hc]; [lia |].
    exists c. split; [exact Hc |].
    unfold smart.not_followed_by in Hafter. rewrite Hc in Hafter.
    unfold smart.delim_or_space in Hafter.
    apply negb_true_iff, orb_false_iff in Hafter as [Hd Hs].
    split; [| exact Hs]. apply Ascii.eqb_neq. exact Hd.
  - destruct (lookup_lt_is_Some_2 text (j - 1)%nat) as [c Hc]; [lia |].
    exists c. split; [exact Hc |].
    unfold smart.not_preceded_by in Hbefore.
    destruct j as [|j']; [lia |].
    replace (S j' - 1)%nat with j' in Hc by lia.
    rewrite Hc in Hbefore. apply negb_true_iff in Hbefore. exact Hbefore.
Qed.

Lemma smart_match_content_witness :
  (2 + 2 < 7)%nat
  /\ (exists c, list_ascii_of_string "a ~~del~~ b" !! 4%nat = Some c
                /\ c <> smart.tilde /\ smart.is_space c = false)
  /\ (exists c, list_ascii_of_string "a ~~del~~ b" !! 6%nat = Some c
                /\ smart.is_space c = false).
Proof.
  apply (smart_match_content smart.tilde
           (list_ascii_of_string "a ~~del~~ b") 2 7).
  reflexivity.
Defined.

(** ** The extensions *)

Section ExtensionFacts.
Context {Patterns : Type}
        (add : string -> mdownx.SimpleTagPattern -> string -> Patterns -> Patterns).

Lemma escape_in d chars : In d (mdownx.escape d chars).
Proof.
  unfold mdownx.escape. destruct (existsb (Ascii.eqb d) chars) eqn:H.
  - apply existsb_exists in H as (c & Hc & Heq).
    apply Ascii.eqb_eq in Heq. subst. exact Hc.
  - apply in_or_app. right. left. reflexivity.
Qed.

Lemma escape_idempotent d chars :
  mdownx.escape d (mdownx.escape d chars) = mdownx.escape d chars.
Proof.
  unfold mdownx.escape at 1.
  replace (existsb (Ascii.eqb d) (mdownx.escape d chars)) with true;
    [reflexivity |].
  symmetry. apply existsb_exists. exists d. split; [apply escape_in |].
  apply Ascii.eqb_refl.
Qed.

Lemma escape_nodup d chars : List.NoDup chars -> List.NoDup (mdownx.escape d chars).
Proof.
  intros Hnd. unfold mdownx.escape.
  destruct (existsb (Ascii.eqb d) chars) eqn:H; [exact Hnd |].
  apply NoDup_ListNoDup, NoDup_app. apply NoDup_ListNoDup in Hnd.
  split; [exact Hnd |]. split; [| apply NoDup_singleton].
  intros c Hc Hd. apply list_elem_of_singleton in Hd. subst c.
  assert (existsb (Ascii.eqb d) chars = true); [| congruence].
  apply existsb_exists. exists d. split; [apply list_elem_of_In, Hc |].
  apply Ascii.eqb_refl.
Qed.

Lemma escape_extends d chars :
  exists added, mdownx.escape d chars = chars ++ added.
Proof.
  unfold mdownx.escape. destruct (existsb _ _).
  - exists []. rewrite app_nil_r. reflexivity.
  - eexists. reflexivity.
Qed.

End ExtensionFacts.

(** X18: [extendMarkdown] of the delete (insert) extension leaves [~]
    ([^]) among the escaped characters, keeps the characters that were
    there in their order, adds no duplicate, and run a second time
    leaves the escaped characters as they are. *)
Theorem extendMarkdown_escapes_once {Patterns : Type}
    (add : string -> mdownx.SimpleTagPattern -> string -> Patterns -> Patterns)
    (configs : gmap string bool) (md : mdownx.Markdown (Patterns := Patterns)) :
  let del := mdownx.delete_extendMarkdown add configs in
  let ins := mdownx.insert_extendMarkdown add configs in
  In smart.tilde (mdownx.ESCAPED_CHARS (del md))
  /\ In smart.caret (mdownx.ESCAPED_CHARS (ins md))
  /\ (exists added,
        mdownx.ESCAPED_CHARS (del md) = mdownx.ESCAPED_CHARS md ++ added)
  /\ (exists added,
        mdownx.ESCAPED_CHARS (ins md) = mdownx.ESCAPED_CHARS md ++ added)
  /\ (List.NoDup (mdownx.ESCAPED_CHARS md) ->
      List.NoDup (mdownx.ESCAPED_CHARS (ins (del md))))
  /\ mdownx.ESCAPED_CHARS (del (del md)) = mdownx.ESCAPED_CHARS (del md)
  /\ mdownx.ESCAPED_CHARS (ins (ins md)) = mdownx.ESCAPED_CHARS (ins md).
Proof.
  cbv zeta. cbn [mdownx.delete_extendMarkdown mdownx.insert_extendMarkdown
                 mdownx.ESCAPED_CHARS].
  repeat split.
  - apply escape_in.
  - apply escape_in.
  - apply escape_extends.
  - apply escape_extends.
  - intros H. apply escape_nodup, escape_nodup, H.
  - apply escape_idempotent.
  - apply escape_idempotent.
Qed.

(** ** The command line *)

Lemma isabs_app a b :
  posixpath.isabs a = true -> posixpath.isabs (a +:+ b) = true.
Proof. destruct a as [|c a]; [discriminate |]. intros H. exact H. Qed.

Lemma initial_slashes_abs p :
  posixpath.isabs p = true -> exists n, posixpath.initial_slashes p = Datatypes.S n.
Proof.
  unfold posixpath.isabs, posixpath.startswith_sep.
  destruct p as [|c1 [|c2 [|c3 p]]]; [discriminate | | |];
    cbn [posixpath.initial_slashes]; intros ->;
    repeat match goal with
           | |- context [Ascii.eqb ?c posixpath.sep] =>
               destruct (Ascii.eqb c posixpath.sep)
           end; eauto.
Qed.

Lemma normpath_abs p :
  posixpath.isabs p = true -> posixpath.isabs (posixpath.normpath p) = true.
Proof.
  intros Habs. unfold posixpath.normpath.
  destruct p as [|c p]; [discriminate |].
  change (String.eqb (String c p) EmptyString) with false. cbv iota.
  destruct (initial_slashes_abs _ Habs) as [n ->]. reflexivity.
Qed.

Lemma join_abs a b :
  posixpath.isabs a = true -> posixpath.isabs (posixpath.join a b) = true.
Proof.
  intros Ha. unfold posixpath.join.
  destruct (posixpath.startswith_sep b) eqn:Hb; [exact Hb |].
  destruct (_ || _); apply isabs_app, Ha.
Qed.

Lemma abspath_abs cwd p :
  posixpath.isabs cwd = true ->
  posixpath.isabs (posixpath.abspath cwd p) = true.
Proof.
  intros Hcwd. unfold posixpath.abspath. apply normpath_abs.
  destruct (posixpath.isabs p) eqn:Hp; [exact Hp | apply join_abs, Hcwd].
Qed.

Section CommandLine.
Context {F : CriticFlags} (S : cli.System) (E : Env).

Lemma matched_files_elem x patterns :
  x ∈ cli.matched_files S E patterns <->
  exists pattern f,
    In pattern patterns /\ In f (cli.glob S pattern)
    /\ x = posixpath.abspath (getcwd E) (posixpath.normpath f).
Proof.
  unfold cli.matched_files. rewrite elem_of_list_to_set, list_elem_of_In.
  rewrite in_map_iff. split.
  - intros (f & <- & Hf). apply in_flat_map in Hf as (pattern & Hp & Hf).
    eauto.
  - intros (pattern & f & Hp & Hf & ->). exists f. split; [reflexivity |].
    apply in_flat_map. eauto.
Qed.

End CommandLine.

Lemma get_files_spec_aux (S : cli.System) (E : Env) p rest :
  exists files, cli.get_files S E (p :: rest) = Some files.
Proof. eexists. reflexivity. Qed.

(** X19: [get_files] fails its assertion when no pattern is given;
    otherwise it returns, without duplicates, exactly the absolute
    normalized paths of the files the patterns match. *)
Theorem get_files_spec (S : cli.System) (E : Env) (patterns : list string) :
  match patterns with
  | [] => cli.get_files S E patterns = None
  | _ :: _ =>
      exists files,
        cli.get_files S E patterns = Some files
        /\ List.NoDup files
        /\ forall x,
             In x files <->
             exists pattern f,
               In pattern patterns /\ In f (cli.glob S pattern)
               /\ x = posixpath.abspath (getcwd E) (posixpath.normpath f)
  end.
Proof.
  destruct patterns as [|p rest]; [reflexivity |].
  exists (elements (cli.matched_files S E (p :: rest))).
  split; [reflexivity |]. split.
  - apply NoDup_ListNoDup, NoDup_elements.
  - intros x. rewrite <- list_elem_of_In, elem_of_elements.
    apply matched_files_elem.
Qed.

(** X20: when the current directory is an absolute path, every path
    returned by [get_files] is absolute. *)
Theorem get_files_absolute (S : cli.System) (E : Env)
    (patterns files : list string) :
  posixpath.isabs (getcwd E) = true ->
  cli.get_files S E patterns = Some files ->
  Forall (fun x => posixpath.isabs x = true) files.
Proof.
  intros Hcwd Hfiles. unfold cli.get_files in Hfiles.
  destruct (Nat.eqb _ _); [discriminate |]. injection Hfiles as <-.
  rewrite List.Forall_forall. intros x Hx.
  apply list_elem_of_In, elem_of_elements, matched_files_elem in Hx
    as (pattern & f & _ & _ & ->).
  apply abspath_abs, Hcwd.
Qed.

Lemma get_files_absolute_witness :
  Forall (fun x => posixpath.isabs x = true) ["/doc/c.md"; "/doc/a.md"].
Proof.
  apply (get_files_absolute sample_system sample.env ["*.md"; "./a*"]
           ["/doc/c.md"; "/doc/a.md"]).
  - reflexivity.
  - vm_compute. reflexivity.
Defined.

Lemma mc_bind_pair {A B} (m : cli.MC A) (k : A -> cli.MC B) :
  cli.MC_bind A B k m = (fst m ++ fst (k (snd m)), snd (k (snd m))).
Proof.
  destruct m as [t a]. unfold cli.MC_bind. cbn [fst snd].
  destruct (k a); reflexivity.
Qed.

Section Sources.
Context (S : cli.System) (E : Env).

Lemma get_sources_files args files :
  cli.get_files S E (cli.markdown args) = Some files ->
  cli.get_sources S E args = ([], (map Some files, false)).
Proof. intros H. unfold cli.get_sources. rewrite H. reflexivity. Qed.

Lemma get_sources_stream args :
  cli.markdown args = [] ->
  cli.get_sources S E args =
  (cli.ReadInput (cli.encoding args)
   :: match cli.input_text S (cli.encoding args) with
      | Some _ => []
      | None => [cli.Conversion LogTraceback]
      end,
   ([cli.input_text S (cli.encoding args)], true)).
Proof.
  intros H. unfold cli.get_sources, cli.get_files, cli.get_file_stream.
  rewrite H. cbn [length Nat.eqb].
  destruct (cli.input_text S (cli.encoding args)); reflexivity.
Qed.

End Sources.

(** X21: [get_sources] reads the standard input exactly when no
    pattern is given, and then returns a single source, the text read
    or [None] when reading failed; with patterns it reads nothing and
    returns the matched files, none of which is [None]. *)
Theorem get_sources_stream_iff (S : cli.System) (E : Env)
    (args : cli.Namespace) :
  let r := cli.get_sources S E args in
  match cli.markdown args with
  | [] =>
      snd (snd r) = true
      /\ fst (snd r) = [cli.input_text S (cli.encoding args)]
      /\ In (cli.ReadInput (cli.encoding args)) (fst r)
  | _ :: _ =>
      snd (snd r) = false
      /\ fst r = []
      /\ exists files,
           cli.get_files S E (cli.markdown args) = Some files
           /\ fst (snd r) = map Some files
  end.
Proof.
  cbv zeta. destruct (cli.markdown args) as [|p rest] eqn:Hm.
  - rewrite get_sources_stream by exact Hm. cbn. auto.
  - destruct (get_files_spec_aux S E p rest) as [files Hfiles].
    rewrite <- Hm in Hfiles.
    rewrite (get_sources_files S E args files Hfiles). cbn.
    rewrite Hm in Hfiles. eauto.
Qed.

Lemma flat_map_all_nil {A B} (f : A -> list B) (l : list A) :
  (forall x, In x l -> f x = []) -> flat_map f l = [].
Proof.
  induction l as [|x l IH]; [reflexivity |]. intros H. cbn.
  rewrite (H x) by (left; reflexivity). apply IH.
  intros y Hy. apply H. right. exact Hy.
Qed.

Section MainFacts.
Context {F : CriticFlags} (S : cli.System) (E : Env).

(** [main] without [--licenses], in terms of [get_sources] and
    [convert]. *)
Lemma main_unfold args :
  cli.licenses args = false ->
  let sources := cli.get_sources S E args in
  let files := fst (snd sources) in
  let stream := snd (snd sources) in
  let batch := if stream then false else cli.batch args in
  cli.main S E args =
  (cli.SetLevel (if cli.quiet args then cli.CRITICAL
                 else if cli.debug args then cli.DEBUG else cli.INFO)
   :: fst sources
   ++ (if negb batch && (1 <? length files)%nat
       then [cli.LogPlain cli.use_batch_mode]
       else cli.UnpackUserFiles
            :: cli.NewSettings (main_settings S args stream)
            :: cli.ReadSettings
            :: map cli.Conversion
                 (fst (convert E (main_converter S args stream) (Some files)))),
   if negb batch && (1 <? length files)%nat then FAIL
   else snd (convert E (main_converter S args stream) (Some files))).
Proof.
  intros Hlic. cbv zeta. unfold cli.main. rewrite Hlic.
  unfold mbind. rewrite !mc_bind_pair. cbn [fst snd cli.tell app].
  destruct (cli.get_sources S E args) as [t [files stream]]. cbn [fst snd].
  destruct (negb (if stream then false else cli.batch args)
            && (1 <? length files)%nat).
  - reflexivity.
  - unfold cli.lift. reflexivity.
Qed.

End MainFacts.

(** X22: without [--batch], patterns that match more than one file make
    [main] log the request for batch mode and return FAIL; no settings
    are built and nothing is converted. *)
Theorem main_needs_batch_mode {F : CriticFlags} (S : cli.System) (E : Env)
    (args : cli.Namespace) (files : list string) :
  cli.licenses args = false ->
  cli.batch args = false ->
  cli.get_files S E (cli.markdown args) = Some files ->
  (1 < length files)%nat ->
  cli.main S E args =
  ([cli.SetLevel (if cli.quiet args then cli.CRITICAL
                  else if cli.debug args then cli.DEBUG else cli.INFO);
    cli.LogPlain cli.use_batch_mode], FAIL).
Proof.
  intros Hlic Hbatch Hfiles Hlen.
  rewrite (main_unfold S E args Hlic). cbv zeta.
  rewrite (get_sources_files S E args files Hfiles). cbn [fst snd].
  rewrite Hbatch, length_map. cbn [negb andb].
  apply Nat.ltb_lt in Hlen. rewrite Hlen. reflexivity.
Qed.

Lemma main_needs_batch_mode_witness :
  cli.main (F := bit_flags) sample_system sample.env
    (sample_args ["*.md"] no_critic_options false) =
  ([cli.SetLevel cli.INFO; cli.LogPlain cli.use_batch_mode], FAIL).
Proof.
  apply (main_needs_batch_mode (F := bit_flags) sample_system sample.env
           (sample_args ["*.md"] no_critic_options false)
           ["/doc/c.md"; "/doc/a.md"]).
  - reflexivity.
  - reflexivity.
  - vm_compute. reflexivity.
  - cbn. lia.
Defined.

(** X23: when the patterns match no file, or when no pattern is given
    and the standard input cannot be read, [main] returns FAIL and its
    last call, the only one it makes to the logger besides the
    traceback of the failed read, is the error "Nothing to parse!". *)
Theorem main_nothing_to_parse {F : CriticFlags} (S : cli.System) (E : Env)
    (args : cli.Namespace) :
  cli.licenses args = false ->
  (cli.markdown args <> []
   /\ forall pattern, In pattern (cli.markdown args) -> cli.glob S pattern = [])
  \/ (cli.markdown args = []
      /\ cli.input_text S (cli.encoding args) = None) ->
  snd (cli.main S E args) = FAIL
  /\ exists calls,
       fst (cli.main S E args) =
       calls ++ [cli.Conversion (LogError "Nothing to parse!")]
       /\ Forall (fun c => c = cli.Conversion LogTraceback
                           \/ is_conversion_call c = false) calls.
Proof.
  intros Hlic Hnone. rewrite (main_unfold S E args Hlic). cbv zeta.
  destruct Hnone as [[Hpat Hglob] | [Hpat Hinput]].
  - assert (Hfiles : cli.get_files S E (cli.markdown args) = Some []).
    { unfold cli.get_files, cli.matched_files.
      destruct (cli.markdown args) as [|p rest] eqn:Hm; [contradiction |].
      cbn [length Nat.eqb]. 
      replace (flat_map (cli.glob S) (p :: rest)) with (@nil string).
      - reflexivity.
      - symmetry. apply flat_map_all_nil. exact Hglob. }
    rewrite (get_sources_files S E args [] Hfiles). cbn [fst snd map length].
    rewrite andb_false_r. split; [reflexivity |].
    eexists [_; _; _; _]. split; [reflexivity |].
    repeat constructor; right; reflexivity.
  - rewrite (get_sources_stream S E args Hpat), Hinput. cbn [fst snd length].
    cbn [negb andb Nat.ltb Nat.leb]. split; [reflexivity |].
    eexists [_; _; _; _; _; _]. split; [reflexivity |].
    repeat constructor; first [right; reflexivity | left; reflexivity].
Qed.

Lemma main_nothing_to_parse_witness :
  snd (cli.main (F := bit_flags) sample_system sample.env
         (sample_args ["*.txt"] no_critic_options true)) = FAIL
  /\ exists calls,
       fst (cli.main (F := bit_flags) sample_system sample.env
              (sample_args ["*.txt"] no_critic_options true)) =
       calls ++ [cli.Conversion (LogError "Nothing to parse!")]
       /\ Forall (fun c => c = cli.Conversion LogTraceback
                           \/ is_conversion_call c = false) calls.
Proof.
  apply (main_nothing_to_parse (F := bit_flags) sample_system sample.env
           (sample_args ["*.txt"] no_critic_options true)).
  - reflexivity.
  - left. split; [discriminate |].
    intros pattern [<- | []]. reflexivity.
Defined.

Section UnresolvedDump.
Context {F : CriticFlags} (E : Env) (self : Convert).
Hypothesis Hdump : has_flag (critic (config self)) CRITIC_DUMP = true.
Hypothesis Htest :
  (Z.land (critic (config self)) (Z.lor CRITIC_REJECT CRITIC_ACCEPT) =? 0) = true.

Lemma critic_dump_unresolved_facts file_name text :
  snd (critic_dump E self file_name text) = FAIL
  /\ count_calls is_dump_output (fst (critic_dump E self file_name text)) = 0%nat.
Proof.
  rewrite critic_dump_unresolved by exact Htest.
  destruct (config_get E _ _ _ _); [| split; reflexivity].
  destruct file_name as [fn|]; [| split; reflexivity].
  destruct (open_read E fn _); split; reflexivity.
Qed.

Lemma convert_unresolved_dump files :
  snd (convert E self files) = FAIL
  /\ count_calls is_dump_output (fst (convert E self files)) = 0%nat.
Proof.
  split.
  - unfold convert. destruct (nothing_to_parse files) eqn:Hguard;
      [reflexivity |].
    destruct files as [[|d rest]|]; try discriminate Hguard.
    rewrite (convert_loop_fail_fast E self [] d rest).
    + cbn [snd]. rewrite convert_one_dump by exact Hdump.
      apply critic_dump_unresolved_facts.
    + constructor.
    + rewrite convert_one_dump by exact Hdump.
      rewrite (proj1 (critic_dump_unresolved_facts _ _)). discriminate.
  - apply convert_count_zero; try reflexivity.
    intros d. rewrite convert_one_dump by exact Hdump.
    apply critic_dump_unresolved_facts.
Qed.

End UnresolvedDump.

(** X24: from the command line, [--critic-dump] with both or neither of
    [--accept] and [--reject] always ends in FAIL, and no text output is
    created, resolved or written for any document, whatever the
    sources. *)
Theorem main_dump_needs_one_resolution {F : CriticFlags} (S : cli.System)
    (E : Env) (args : cli.Namespace) :
  flags_independent F ->
  (forall kw, critic (cli.new_settings S kw) = cli.kw_critic kw) ->
  cli.licenses args = false ->
  critic_dump_arg (cli.critic_args args) = true ->
  accept (cli.critic_args args) = reject (cli.critic_args args) ->
  snd (cli.main S E args) = FAIL
  /\ forall e, In (cli.Conversion e) (fst (cli.main S E args)) ->
               is_dump_output e = false.
Proof.
  intros Hind Hstore Hlic Hdump Hboth.
  rewrite (main_unfold S E args Hlic). cbv zeta.
  set (sources := cli.get_sources S E args).
  set (self := main_converter S args (snd (snd sources))).
  assert (Hmode : critic (config self) = get_critic_mode (cli.critic_args args)).
  { unfold self, main_converter. cbn [config]. rewrite Hstore. reflexivity. }
  destruct (get_critic_mode_table Hind (cli.critic_args args))
    as (_ & Ha & Hr & Hd).
  rewrite <- Hmode in Ha, Hr, Hd. rewrite Hdump in Hd.
  rewrite Hboth in Ha. rewrite Hboth in Hr.
  rewrite andb_negb_r in Ha, Hr.
  pose proof (convert_unresolved_dump E self Hd (neither_flag_test _ Ha Hr)
                (Some (fst (snd sources)))) as [Hfail Hcount].
  split.
  - destruct (_ && _); [reflexivity | exact Hfail].
  - intros e Hin. cbn [fst] in Hin.
    assert (Hsrc : forall e', In (cli.Conversion e') (fst sources) ->
                              is_dump_output e' = false).
    { unfold sources, cli.get_sources, cli.get_file_stream.
      destruct (cli.get_files S E (cli.markdown args)); [intros ? [] |].
      destruct (cli.input_text S (cli.encoding args)); cbn;
        intros e' H;
        repeat (destruct H as [H | H];
                [first [discriminate H | injection H as <-; reflexivity] |]);
        contradiction. }
    destruct Hin as [Hin | Hin]; [discriminate Hin |].
    apply in_app_iff in Hin as [Hin | Hin]; [apply Hsrc, Hin |].
    destruct (_ && _).
    + destruct Hin as [Hin | []]. discriminate Hin.
    + destruct Hin as [Hin | [Hin | [Hin | Hin]]]; try discriminate Hin.
      apply in_map_iff in Hin as (e' & [= ->] & Hin).
      apply count_calls_zero_iff in Hcount.
      destruct (is_dump_output e) eqn:He; [| reflexivity].
      assert (existsb is_dump_output
                (fst (convert E self (Some (fst (snd sources))))) = true);
        [| congruence].
      apply existsb_exists. eauto.
Qed.

Lemma main_dump_needs_one_resolution_witness :
  snd (cli.main (F := bit_flags) sample_system sample.env
         (sample_args ["*.md"]
            {| accept := true; reject := true; critic_dump_arg := true |}
            true)) = FAIL.
Proof.
  apply (main_dump_needs_one_resolution (F := bit_flags) sample_system
           sample.env
           (sample_args ["*.md"]
              {| accept := true; reject := true; critic_dump_arg := true |}
              true));
    [exact bit_flags_independent | reflexivity..].
Defined.

(** ** What the rendering is given *)

Ltac trace_member H :=
  cbn [fst snd] in H; rewrite ?in_app_iff in H;
  repeat match goal with
         | H : _ \/ _ |- _ => destruct H
         | H : In _ (fst (get_references _ _ _ _)) |- _ =>
             apply reference_call_in in H; discriminate H
         | H : In _ (_ :: _) |- _ => cbn in H
         | H : In _ [] |- _ => destruct H
         | H : False |- _ => destruct H
         | H : ConfigGet _ _ _ _ = ConfigGet _ _ _ _ |- _ =>
             injection H as <- <- <- <-
         | H : MdConvert _ = MdConvert _ |- _ => injection H as <-
         | H : _ = ConfigGet _ _ _ _ |- _ => discriminate H
         | H : _ = MdConvert _ |- _ => discriminate H
         end.

Ltac loaded_of_trace E :=
  cbn [fst snd]; rewrite ?loaded_text_app; cbn [loaded_text];
  rewrite ?str_app_nil_r;
  match goal with
  | |- context [snd (get_references E ?r ?b ?enc)] =>
      rewrite (proj2 (proj2 (get_references_text_of_loads_aux E r b enc)))
  end.

(** X25: [html_dump] resolves the settings of a document with the
    front matter extracted from its text, and gives the markdown engine
    the text that follows the front matter, followed by the text of the
    reference files it loaded. *)
Theorem html_dump_uses_front_matter (E : Env) (self : Convert)
    (file_name text : option string) :
  (forall f b o fm,
     In (ConfigGet f b o fm) (fst (html_dump E self file_name text)) ->
     exists raw,
       source_text E self file_name text = Some raw
       /\ fm = fst (get_frontmatter_string E raw))
  /\ (forall t,
        In (MdConvert t) (fst (html_dump E self file_name text)) ->
        exists raw,
          source_text E self file_name text = Some raw
          /\ t = snd (get_frontmatter_string E raw)
                 +:+ loaded_text E (fst (html_dump E self file_name text))).
Proof.
  split.
  - intros f b o fm. render_paths E self file_name; intros H;
      trace_member H; eexists; split; reflexivity.
  - intros t. render_paths E self file_name; intros H;
      trace_member H; eexists; (split; [reflexivity |]);
      loaded_of_trace E; reflexivity.
Qed.

Lemma html_dump_uses_front_matter_witness :
  exists raw,
    source_text sample.env sample.render (Some "/doc/a.md") None = Some raw
    /\ "# Title {++added++}[/doc/refs.md][/doc/more.md]" =
       snd (get_frontmatter_string sample.env raw)
       +:+ loaded_text sample.env
             (fst (html_dump sample.env sample.render (Some "/doc/a.md") None)).
Proof.
  apply (proj2 (html_dump_uses_front_matter sample.env sample.render
                  (Some "/doc/a.md") None)).
  vm_compute. do 7 right. left. reflexivity.
Defined.
